(** * gominion: configuration model, gRPC broker client and NX-OS sink module

    A shallow embedding of

    - [api/config.go]        : [MinionListener], [MinionConfig], [GetParser],
                               [GetListener], [IsValid];
    - the gRPC broker client : [GrpcClient] with [Send], [initSinkStream],
                               [initRPCStream], [sendMinionHeaders],
                               [processRequest], [sendResponse];
    - [sink/nxos-grpc.go]    : [NxosGrpcModule.Start], [Stop], [MdtDialout];
    - the root command       : [rootHandler], [initConfig];
    - the gRPC client again  : [Start], [Stop], [getTransportCredentials].

    Go strings are byte strings and are modelled by [string]; Go [int] by [Z];
    a Go pointer or interface value that may be [nil] by [option]; an [error]
    by [option error] with [None] for [nil]. *)

From Stdlib Require Import ZArith String Ascii List Bool Lia.
From stdpp Require Import base option list gmap strings pretty.
Import ListNotations.

Local Open Scope Z_scope.

(* ===================================================================== *)
(** * Package [strings] (the parts used by the sources)                   *)
(* ===================================================================== *)

Module strings.

(** [strings.Split(s, sep)] for a one-byte separator: the pieces of [s]
    between consecutive occurrences of [sep]; one piece more than there are
    separators, so the result is never empty ([Split("", ".")] is [[""]]). *)
Fixpoint Split (s : string) (sep : ascii) : list string :=
  match s with
  | EmptyString => [EmptyString]
  | String c rest =>
      if Ascii.eqb c sep then EmptyString :: Split rest sep
      else match Split rest sep with
           | [] => [String c EmptyString]
           | piece :: pieces => String c piece :: pieces
           end
  end.

(** [s] has no byte equal to [c]. *)
Fixpoint lacks (c : ascii) (s : string) : bool :=
  match s with
  | EmptyString => true
  | String d rest => negb (Ascii.eqb d c) && lacks c rest
  end.

End strings.

(* ===================================================================== *)
(** * Package [api]: configuration                                        *)
(* ===================================================================== *)

Module api.

(** [type MinionListener struct] *)
Record MinionListener := mkListener {
  Name   : string;
  Parser : string;
  Port   : Z;
}.

Definition dot : ascii := "."%char.

(** [func (listener *MinionListener) GetParser() string].
    [sections[len(sections)-1]] is the last element; [Split] never returns
    an empty slice (lemma [Split_nonempty]), so the default of [last] is
    never taken. *)
Definition GetParser (listener : MinionListener) : string :=
  if String.eqb (Parser listener) "" then ""
  else
    let sections := strings.Split (Parser listener) dot in
    List.last sections "".

(** [type MinionConfig struct] *)
Record MinionConfig := mkConfig {
  ID               : string;
  Location         : string;
  BrokerURL        : string;
  BrokerType       : string;
  BrokerProperties : gmap string string;
  TrapPort         : Z;
  SyslogPort       : Z;
  NxosGrpcPort     : Z;
  Listeners        : list MinionListener;
}.

(** [func (cfg *MinionConfig) GetListener(name string) *MinionListener]:
    the first listener of that name, [nil] when there is none. *)
Fixpoint find_listener (p : MinionListener -> bool) (ls : list MinionListener)
  : option MinionListener :=
  match ls with
  | [] => None
  | listener :: rest => if p listener then Some listener else find_listener p rest
  end.

Definition GetListener (cfg : MinionConfig) (name : string) : option MinionListener :=
  find_listener (fun listener => String.eqb (Name listener) name) (Listeners cfg).

(** [func (cfg *MinionConfig) IsValid() error]; [None] is [nil]. *)
Definition IsValid (cfg : MinionConfig) : option string :=
  if String.eqb (ID cfg) "" then Some "Minion ID required"
  else if String.eqb (Location cfg) "" then Some "Location required"
  else if String.eqb (BrokerURL cfg) "" then Some "Broker URL required"
  else None.

End api.

(* ===================================================================== *)
(** * Package [api]: the parts whose bodies are not among the sources     *)
(* ===================================================================== *)

Module api_ext.
Import api.

(** Modelled from the spec: [MinionListener.Is] is used by the test
    ([netflow.Is("Netflow5UdpParser")]) but its body is missing.  Section 8,
    listener dispatch: a listener matches a parser name on the final dotted
    segment of its configured parser. *)
Definition Is (listener : MinionListener) (parser : string) : bool :=
  String.eqb (GetParser listener) parser.

(** Modelled from the spec: [MinionConfig.GetListenerByParser] is called by
    the NX-OS module and by the test but its body is missing.  Section 8:
    "[GetListenerByParser(p)] matches the final dotted segment of the
    configured parser"; like [GetListener] it yields the first match, or
    [nil]. *)
Definition GetListenerByParser (cfg : MinionConfig) (parser : string)
  : option MinionListener :=
  find_listener (fun listener => Is listener parser) (Listeners cfg).

(** Decimal digits of a port number ([Name,Port,Parser]). *)
Definition digit_value (c : ascii) : option Z :=
  let n := Z.of_N (N_of_ascii c) in
  if (48 <=? n) && (n <=? 57) then Some (n - 48) else None.

Fixpoint parse_digits (acc : Z) (s : string) : option Z :=
  match s with
  | EmptyString => Some acc
  | String c rest =>
      match digit_value c with
      | Some d => parse_digits (10 * acc + d) rest
      | None => None
      end
  end.

Definition parse_port (s : string) : option Z :=
  match s with
  | EmptyString => None
  | _ => parse_digits 0 s
  end.

Definition comma : ascii := ","%char.

(** Modelled from the spec: the per-entry parser behind [ParseListeners] is
    missing.  Section 6: the listener flag syntax is [Name,Port,Parser];
    an entry with fewer than three fields is malformed and rejected with a
    per-entry error.  The spec does not say what happens to an entry with
    more than three fields or with a port that is not a decimal number;
    the model rejects those per entry as well. *)
Definition ParseListener (csv : string) : string + MinionListener :=
  match strings.Split csv comma with
  | [name; port; parser] =>
      match parse_port port with
      | Some p => inr {| Name := name; Parser := parser; Port := p |}
      | None => inl ("invalid listener port: " +:+ csv)
      end
  | _ => inl ("invalid listener: " +:+ csv)
  end.

(** Result of [ParseListeners]: the configuration with the accepted
    listeners appended, the per-entry errors, and the returned [error]. *)
Record ParseResult := mkParseResult {
  parsed_config : MinionConfig;
  entry_errors  : list string;
  parse_error   : option string;
}.

Definition add_listener (cfg : MinionConfig) (l : MinionListener) : MinionConfig :=
  {| ID := ID cfg; Location := Location cfg; BrokerURL := BrokerURL cfg;
     BrokerType := BrokerType cfg; BrokerProperties := BrokerProperties cfg;
     TrapPort := TrapPort cfg; SyslogPort := SyslogPort cfg;
     NxosGrpcPort := NxosGrpcPort cfg;
     Listeners := Listeners cfg ++ [l] |}.

(** Modelled from the spec: [MinionConfig.ParseListeners] is called by the
    root command and by the test but its body is missing.  Section 6:
    "Malformed entries (fewer than three fields) are rejected per-entry but
    do not abort startup of well-formed entries"; scenario 2: "two
    well-formed listeners added; ill-formed entries rejected with per-entry
    errors".  The root command aborts on a non-nil result, so a rejected
    entry is recorded and the loop goes on; the result is [nil]. *)
Fixpoint ParseListeners_loop (cfg : MinionConfig) (errs : list string)
    (csvs : list string) : ParseResult :=
  match csvs with
  | [] => {| parsed_config := cfg; entry_errors := errs; parse_error := None |}
  | csv :: rest =>
      match ParseListener csv with
      | inr l => ParseListeners_loop (add_listener cfg l) errs rest
      | inl err => ParseListeners_loop cfg (errs ++ [err]) rest
      end
  end.

Definition ParseListeners (cfg : MinionConfig) (csvs : list string) : ParseResult :=
  ParseListeners_loop cfg [] csvs.

End api_ext.

(* ===================================================================== *)
(** * Errors, gRPC status codes and connectivity states                   *)
(* ===================================================================== *)

Module codes.
(** [google.golang.org/grpc/codes] *)
Inductive Code :=
| OK | Canceled | Unknown | InvalidArgument | DeadlineExceeded | NotFound
| AlreadyExists | PermissionDenied | ResourceExhausted | FailedPrecondition
| Aborted | OutOfRange | Unimplemented | Internal | Unavailable | DataLoss
| Unauthenticated.

Definition String (c : Code) : string :=
  match c with
  | OK => "OK" | Canceled => "Canceled" | Unknown => "Unknown"
  | InvalidArgument => "InvalidArgument"
  | DeadlineExceeded => "DeadlineExceeded" | NotFound => "NotFound"
  | AlreadyExists => "AlreadyExists" | PermissionDenied => "PermissionDenied"
  | ResourceExhausted => "ResourceExhausted"
  | FailedPrecondition => "FailedPrecondition" | Aborted => "Aborted"
  | OutOfRange => "OutOfRange" | Unimplemented => "Unimplemented"
  | Internal => "Internal" | Unavailable => "Unavailable"
  | DataLoss => "DataLoss" | Unauthenticated => "Unauthenticated"
  end.

Definition is_Unavailable (c : Code) : bool :=
  match c with Unavailable => true | _ => false end.
End codes.

Module connectivity.
(** [google.golang.org/grpc/connectivity.State] *)
Inductive State := Idle | Connecting | Ready | TransientFailure | Shutdown.

Definition is_Ready (s : State) : bool :=
  match s with Ready => true | _ => false end.
End connectivity.

(** A Go [error] value that is not [nil]: the sentinel [io.EOF], a gRPC
    status error, or an error made by [fmt.Errorf]. *)
Inductive error :=
| io_EOF
| status_Error (code : codes.Code) (desc : string)
| fmt_Errorf (msg : string).

(** [err.Error()] *)
Definition Error (e : error) : string :=
  match e with
  | io_EOF => "EOF"
  | status_Error c desc => "rpc error: code = " +:+ codes.String c +:+ " desc = " +:+ desc
  | fmt_Errorf msg => msg
  end.

(** [err == io.EOF] *)
Definition is_EOF (e : error) : bool :=
  match e with io_EOF => true | _ => false end.

(** [status.FromError(err)] followed by [.Code()], for a non-nil [err]. *)
Definition status_Code (e : error) : codes.Code :=
  match e with
  | status_Error c _ => c
  | _ => codes.Unknown
  end.

(* ===================================================================== *)
(** * Package [ipc]: the protobuf envelopes                               *)
(* ===================================================================== *)

(** The generated protobuf declarations are not among the sources; the
    records carry the fields section 3 of the specification lists and the
    code reads.  [ExpirationTime] is an absolute time in epoch
    milliseconds. *)
Module SinkMessage.
Record t := mk {
  MessageId : string;
  Content   : list Byte.byte;
  SystemId  : string;
  Location  : string;
  ModuleId  : string;
}.
End SinkMessage.

Module RpcRequestProto.
Record t := mk {
  RpcId          : string;
  RpcContent     : list Byte.byte;
  SystemId       : string;
  Location       : string;
  ModuleId       : string;
  ExpirationTime : Z;
}.
End RpcRequestProto.

Module RpcResponseProto.
Record t := mk {
  RpcId      : string;
  RpcContent : list Byte.byte;
  SystemId   : string;
  Location   : string;
  ModuleId   : string;
}.
End RpcResponseProto.

(** [type RPCModule interface] *)
Record RPCModule := mkRPCModule {
  GetID   : string;
  Execute : RpcRequestProto.t -> option RpcResponseProto.t;
}.

(** Modelled from the spec: [MinionConfig.GetHeaderResponse] is called by
    [sendMinionHeaders] but its body is missing.  Section 4.4: the Minion
    header is a message with "empty RpcId, the agent's SystemId and
    Location"; the fields the spec does not mention keep the protobuf zero
    value. *)
Definition GetHeaderResponse (cfg : api.MinionConfig) : RpcResponseProto.t :=
  {| RpcResponseProto.RpcId := "";
     RpcResponseProto.RpcContent := [];
     RpcResponseProto.SystemId := api.ID cfg;
     RpcResponseProto.Location := api.Location cfg;
     RpcResponseProto.ModuleId := "" |}.

(* ===================================================================== *)
(** * Metrics: counter vectors labelled by (SystemId, ModuleId)           *)
(* ===================================================================== *)

Inductive Counter :=
| SinkMsgDeliverySucceeded | SinkMsgDeliveryFailed
| RPCReqReceivedSucceeded | RPCReqReceivedFailed
| RPCReqProcessedSucceeded | RPCReqProcessedFailed
| RPCResSentSucceeded | RPCResSentFailed.

#[global] Instance Counter_eq_dec : EqDecision Counter.
Proof. solve_decision. Defined.

Definition Counter_to_nat (c : Counter) : nat :=
  match c with
  | SinkMsgDeliverySucceeded => 0 | SinkMsgDeliveryFailed => 1
  | RPCReqReceivedSucceeded => 2 | RPCReqReceivedFailed => 3
  | RPCReqProcessedSucceeded => 4 | RPCReqProcessedFailed => 5
  | RPCResSentSucceeded => 6 | RPCResSentFailed => 7
  end%nat.

Definition Counter_of_nat (n : nat) : Counter :=
  match n with
  | 0 => SinkMsgDeliverySucceeded | 1 => SinkMsgDeliveryFailed
  | 2 => RPCReqReceivedSucceeded | 3 => RPCReqReceivedFailed
  | 4 => RPCReqProcessedSucceeded | 5 => RPCReqProcessedFailed
  | 6 => RPCResSentSucceeded | _ => RPCResSentFailed
  end%nat.

#[global] Instance Counter_countable : Countable Counter.
Proof.
  apply (inj_countable' Counter_to_nat Counter_of_nat).
  intros []; reflexivity.
Defined.

(** One time series per counter and label pair. *)
Abbreviation Metrics := (gmap (Counter * (string * string)) nat).

(** Current value of [c.WithLabelValues(systemId, moduleId)]. *)
Definition value (m : Metrics) (c : Counter) (systemId moduleId : string) : nat :=
  default 0%nat (m !! (c, (systemId, moduleId))).

(** [c.WithLabelValues(systemId, moduleId).Inc()] *)
Definition Inc (c : Counter) (systemId moduleId : string) (m : Metrics) : Metrics :=
  <[ (c, (systemId, moduleId)) := S (value m c systemId moduleId) ]> m.

(* ===================================================================== *)
(** * Package [broker]: the gRPC client                                   *)
(* ===================================================================== *)

Module broker.

(** A client stream opened on the connection, named by the order in which
    the streams were opened. *)
Definition Stream := nat.

Inductive Mutex := sinkMutex | rpcMutex.
Inductive Level := Debug | Info | Warn | Err.

(** What a goroutine started with [go func() {...}()] runs:
    - [RpcHandler]: the request handler of [initRPCStream];
    - [RpcSupervisor]: the goroutine of [initRPCStream] that waits for the
      end of the stream and restarts it;
    - [RpcWorker module request]: the goroutine of [processRequest].
    A goroutine that was pre-empted inside its [for] loop waits as what is
    left of its body:
    - [RpcHandlerLoop]: the request handler, at the head of its loop
      (the headers are behind it);
    - [RpcSupervisorLoop]: the supervisor, at the head of its retry loop
      (the end of the stream is behind it). *)
Inductive Task :=
| RpcHandler
| RpcSupervisor
| RpcWorker (module : RPCModule) (request : RpcRequestProto.t)
| RpcHandlerLoop
| RpcSupervisorLoop.

(** What the client does to the outside, in the order it does it. *)
Inductive Event :=
| EvLog (lvl : Level) (msg : string)
| EvLock (m : Mutex)
| EvUnlock (m : Mutex)
| EvSinkStreaming (res : error + Stream)
| EvRpcStreaming (res : error + Stream)
| EvCloseSend (s : Stream)
| EvSinkSend (s : Stream) (msg : SinkMessage.t) (res : option error)
| EvRpcSend (s : Stream) (msg : RpcResponseProto.t) (res : option error)
| EvRpcRecv (s : Stream) (request : option RpcRequestProto.t) (err : option error)
| EvExecute (moduleId : string) (request : RpcRequestProto.t)
| EvSpanStart (operation : string)
| EvSpanSetTag (key val : string)
| EvSpanLogKV (key val : string)
| EvSpanFinish
| EvAwaitDone (s : Stream)
| EvSleep (milliseconds : Z)
| EvReadFile (path : string)
| EvLoadX509KeyPair (certFile keyFile : string).

(** The server and the network, as the client observes them.  Every call
    that leaves the process is answered by the entry for the current
    [tick], which the call then advances; the answers are arbitrary.
    [stream_Recv] returns the Go pair [(request, err)]. *)
Record Net := mkNet {
  conn_GetState      : nat -> connectivity.State;
  onms_SinkStreaming : nat -> option error;
  onms_RpcStreaming  : nat -> option error;
  stream_Send        : nat -> option error;
  stream_Recv        : nat -> option RpcRequestProto.t * option error;
  time_Now           : nat -> Z;
}.

(** The fields of [GrpcClient] that the modelled methods read or write
    ([conn] and [onms] are set once by [Start] and answer through [Net]),
    the RPC module registry of package [api], and the bookkeeping of the
    model: the clock of [Net], the number of streams opened, the events so
    far and the goroutines started and not yet run. *)
Record World := mkWorld {
  config     : api.MinionConfig;
  rpcStream  : option Stream;
  sinkStream : option Stream;
  metrics    : Metrics;
  rpcModules : gmap string RPCModule;
  tick       : nat;
  opened     : nat;
  events     : list Event;
  goroutines : list Task;
}.

Definition set_rpcStream (s : option Stream) (w : World) : World :=
  mkWorld (config w) s (sinkStream w) (metrics w) (rpcModules w)
          (tick w) (opened w) (events w) (goroutines w).
Definition set_sinkStream (s : option Stream) (w : World) : World :=
  mkWorld (config w) (rpcStream w) s (metrics w) (rpcModules w)
          (tick w) (opened w) (events w) (goroutines w).
Definition set_metrics (m : Metrics) (w : World) : World :=
  mkWorld (config w) (rpcStream w) (sinkStream w) m (rpcModules w)
          (tick w) (opened w) (events w) (goroutines w).
Definition set_tick (n : nat) (w : World) : World :=
  mkWorld (config w) (rpcStream w) (sinkStream w) (metrics w) (rpcModules w)
          n (opened w) (events w) (goroutines w).
Definition set_opened (n : nat) (w : World) : World :=
  mkWorld (config w) (rpcStream w) (sinkStream w) (metrics w) (rpcModules w)
          (tick w) n (events w) (goroutines w).
Definition set_events (evs : list Event) (w : World) : World :=
  mkWorld (config w) (rpcStream w) (sinkStream w) (metrics w) (rpcModules w)
          (tick w) (opened w) evs (goroutines w).
Definition set_goroutines (ts : list Task) (w : World) : World :=
  mkWorld (config w) (rpcStream w) (sinkStream w) (metrics w) (rpcModules w)
          (tick w) (opened w) (events w) ts.

(** ** The monad of client code: state, and a Go panic as the failure *)

Inductive Result (A : Type) :=
| Done (a : A) (w : World)
| Panic (msg : string) (w : World).
Arguments Done {A} a w.
Arguments Panic {A} msg w.

Definition M (A : Type) := World -> Result A.

Definition ret {A} (a : A) : M A := fun w => Done a w.
Definition bind {A B} (m : M A) (k : A -> M B) : M B :=
  fun w => match m w with
           | Done a w' => k a w'
           | Panic msg w' => Panic msg w'
           end.
Definition panic {A} (msg : string) : M A := fun w => Panic msg w.
Definition gets {A} (f : World -> A) : M A := fun w => Done (f w) w.
Definition modify (f : World -> World) : M unit := fun w => Done tt (f w).

Declare Scope go_scope.
Delimit Scope go_scope with go.
Notation "x <- m ;; k" := (bind m (fun x => k))
  (at level 100, m at level 99, k at level 200, right associativity) : go_scope.
Notation "m ;;; k" := (bind m (fun _ => k))
  (at level 100, k at level 200, right associativity) : go_scope.
Local Open Scope go_scope.

Definition nil_dereference : string :=
  "runtime error: invalid memory address or nil pointer dereference".

(** Reading a field through a pointer, or calling a method on an interface
    value: a panic when it is [nil]. *)
Definition deref {A} (p : option A) : M A :=
  match p with
  | Some a => ret a
  | None => panic nil_dereference
  end.

Definition emit (e : Event) : M unit :=
  modify (fun w => set_events (events w ++ [e]) w).
Definition log (lvl : Level) (msg : string) : M unit := emit (EvLog lvl msg).
Definition go (t : Task) : M unit :=
  modify (fun w => set_goroutines (goroutines w ++ [t]) w).
Definition inc (c : Counter) (systemId moduleId : string) : M unit :=
  modify (fun w => set_metrics (Inc c systemId moduleId (metrics w)) w).

Section Client.
Variable net : Net.

(** The answer of the outside for the current tick; time moves on. *)
Definition ask {A} (oracle : Net -> nat -> A) : M A :=
  fun w => Done (oracle net (tick w)) (set_tick (S (tick w)) w).

(** [cli.conn.GetState()] *)
Definition GetState : M connectivity.State := ask conn_GetState.

(** [cli.sinkStream, err = cli.onms.SinkStreaming(context.Background())]:
    a fresh stream and [nil], or [nil] and the error. *)
Definition SinkStreaming : M (option error) :=
  r <- ask onms_SinkStreaming ;;
  match r with
  | None =>
      s <- gets opened ;;
      modify (fun w => set_sinkStream (Some s) (set_opened (S s) w)) ;;;
      emit (EvSinkStreaming (inr s)) ;;;
      ret None
  | Some err =>
      modify (set_sinkStream None) ;;;
      emit (EvSinkStreaming (inl err)) ;;;
      ret (Some err)
  end.

(** [cli.rpcStream, err = cli.onms.RpcStreaming(context.Background())] *)
Definition RpcStreaming : M (option error) :=
  r <- ask onms_RpcStreaming ;;
  match r with
  | None =>
      s <- gets opened ;;
      modify (fun w => set_rpcStream (Some s) (set_opened (S s) w)) ;;;
      emit (EvRpcStreaming (inr s)) ;;;
      ret None
  | Some err =>
      modify (set_rpcStream None) ;;;
      emit (EvRpcStreaming (inl err)) ;;;
      ret (Some err)
  end.

(** [cli.sinkStream.Send(msg)] *)
Definition sinkStream_Send (msg : SinkMessage.t) : M (option error) :=
  p <- gets sinkStream ;;
  s <- deref p ;;
  r <- ask stream_Send ;;
  emit (EvSinkSend s msg r) ;;;
  ret r.

(** [cli.rpcStream.Send(msg)] *)
Definition rpcStream_Send (msg : RpcResponseProto.t) : M (option error) :=
  p <- gets rpcStream ;;
  s <- deref p ;;
  r <- ask stream_Send ;;
  emit (EvRpcSend s msg r) ;;;
  ret r.

(** [cli.rpcStream.Recv()] *)
Definition rpcStream_Recv : M (option RpcRequestProto.t * option error) :=
  p <- gets rpcStream ;;
  s <- deref p ;;
  r <- ask stream_Recv ;;
  emit (EvRpcRecv s (fst r) (snd r)) ;;;
  ret r.

(** [cli.sinkStream == nil || cli.conn.GetState() != connectivity.Ready]
    (and the same test on [cli.rpcStream]); [||] does not evaluate its
    right operand when the left one is true. *)
Definition unavailable (stream : World -> option Stream) : M bool :=
  p <- gets stream ;;
  match p with
  | None => ret true
  | Some _ => st <- GetState ;; ret (negb (connectivity.is_Ready st))
  end.

(** [func (cli *GrpcClient) initSinkStream() error] *)
Definition initSinkStream : M (option error) :=
  emit (EvLock sinkMutex) ;;;
  p <- gets sinkStream ;;
  match p with
  | Some s => emit (EvCloseSend s)
  | None => ret tt
  end ;;;
  err <- SinkStreaming ;;
  match err with
  | Some e =>
      emit (EvUnlock sinkMutex) ;;;
      ret (Some (fmt_Errorf ("cannot initialize Sink API Stream: " +:+ Error e)))
  | None =>
      emit (EvUnlock sinkMutex) ;;;
      ret None
  end.

(** [func (cli *GrpcClient) Send(msg *ipc.SinkMessage) error] *)
Definition Send (msg : SinkMessage.t) : M (option error) :=
  restart <- unavailable sinkStream ;;
  failed <- (if restart : bool then
               err <- initSinkStream ;;
               match err with
               | Some e => ret (Some e)
               | None => log Warn "Sink API stream restarted" ;;; ret None
               end
             else ret None) ;;
  match failed with
  | Some e => ret (Some e)
  | None =>
      emit (EvSpanStart "Sink") ;;;
      emit (EvLock sinkMutex) ;;;
      err <- sinkStream_Send msg ;;
      emit (EvUnlock sinkMutex) ;;;
      match err with
      | None =>
          inc SinkMsgDeliverySucceeded
              (SinkMessage.SystemId msg) (SinkMessage.ModuleId msg) ;;;
          emit EvSpanFinish ;;;
          ret None
      | Some e =>
          let e := if is_EOF e then fmt_Errorf "server unreachable" else e in
          inc SinkMsgDeliveryFailed
              (SinkMessage.SystemId msg) (SinkMessage.ModuleId msg) ;;;
          emit (EvSpanSetTag "failed" "true") ;;;
          emit (EvSpanLogKV "event" (Error e)) ;;;
          emit EvSpanFinish ;;;
          ret (Some e)
      end
  end.

(** [func (cli *GrpcClient) sendResponse(response *ipc.RpcResponseProto) error];
    [&&] does not evaluate its right operand when the left one is false. *)
Definition sendResponse (response : RpcResponseProto.t) : M (option error) :=
  down <- unavailable rpcStream ;;
  if down : bool then
    inc RPCResSentFailed
        (RpcResponseProto.SystemId response) (RpcResponseProto.ModuleId response) ;;;
    ret (Some (fmt_Errorf
      ("cannot connect to the server, ignoring RPC request for module "
       +:+ RpcResponseProto.ModuleId response +:+ " with ID "
       +:+ RpcResponseProto.RpcId response)))
  else
    emit (EvLock rpcMutex) ;;;
    err <- rpcStream_Send response ;;
    emit (EvUnlock rpcMutex) ;;;
    match err with
    | None =>
        inc RPCResSentSucceeded
            (RpcResponseProto.SystemId response) (RpcResponseProto.ModuleId response) ;;;
        ret None
    | Some e =>
        inc RPCResSentFailed
            (RpcResponseProto.SystemId response) (RpcResponseProto.ModuleId response) ;;;
        ret (Some (fmt_Errorf
          ("cannot send RPC response for module "
           +:+ RpcResponseProto.ModuleId response +:+ " with ID "
           +:+ RpcResponseProto.RpcId response +:+ ": " +:+ Error e)))
    end.

(** The goroutine started by [processRequest]: [go func() {...}()]. *)
Definition rpcWorker (module : RPCModule) (request : RpcRequestProto.t) : M unit :=
  emit (EvSpanStart "RPC") ;;;
  emit (EvExecute (RpcRequestProto.ModuleId request) request) ;;;
  err <- match Execute module request with
         | Some response =>
             inc RPCReqProcessedSucceeded
                 (RpcRequestProto.SystemId request) (RpcRequestProto.ModuleId request) ;;;
             sendResponse response
         | None =>
             inc RPCReqProcessedFailed
                 (RpcRequestProto.SystemId request) (RpcRequestProto.ModuleId request) ;;;
             ret (Some (fmt_Errorf
               ("module " +:+ RpcRequestProto.ModuleId request
                +:+ " returned an empty response for request "
                +:+ RpcRequestProto.RpcId request +:+ ", ignoring")))
         end ;;
  match err with
  | Some e =>
      emit (EvSpanSetTag "failed" "true") ;;;
      emit (EvSpanLogKV "event" (Error e))
  | None => ret tt
  end ;;;
  emit EvSpanFinish.

(** [func (cli *GrpcClient) processRequest(request *ipc.RpcRequestProto)];
    [api.GetRPCModule(id)] is a lookup in the registry of RPC modules. *)
Definition processRequest (request : option RpcRequestProto.t) : M unit :=
  rq <- deref request ;;
  log Debug ("Received RPC request with ID " +:+ RpcRequestProto.RpcId rq
             +:+ " for module " +:+ RpcRequestProto.ModuleId rq
             +:+ " at location " +:+ RpcRequestProto.Location rq) ;;;
  found <- gets (fun w => rpcModules w !! RpcRequestProto.ModuleId rq) ;;
  match found with
  | Some module => go (RpcWorker module rq)
  | None =>
      log Err ("Cannot find implementation for module "
               +:+ RpcRequestProto.ModuleId rq
               +:+ ", ignoring request with ID " +:+ RpcRequestProto.RpcId rq)
  end.

(** [func (cli *GrpcClient) sendMinionHeaders()] *)
Definition sendMinionHeaders : M unit :=
  cfg <- gets config ;;
  let headers := GetHeaderResponse cfg in
  log Info ("Sending Minion Headers from SystemId " +:+ api.ID cfg
            +:+ " to gRPC server") ;;;
  emit (EvLock rpcMutex) ;;;
  err <- rpcStream_Send headers ;;
  match err with
  | Some e => log Err ("Cannot send RPC headers: " +:+ Error e)
  | None => ret tt
  end ;;;
  emit (EvUnlock rpcMutex).

(** How far the [for] loop of a goroutine got with the given number of
    iterations: it left the loop, or it is still in it. *)
Inductive Loop := Left | Looping.

(** The [for] loop of the request handler of [initRPCStream]; [fuel]
    bounds the number of iterations that are run. *)
Fixpoint rpcHandlerLoop (fuel : nat) : M Loop :=
  match fuel with
  | O => ret Looping
  | S fuel =>
      down <- unavailable rpcStream ;;
      if down : bool then ret Left
      else
        r <- rpcStream_Recv ;;
        let request := fst r in
        match snd r with
        | None =>
            processRequest request ;;;
            rq <- deref request ;;
            inc RPCReqReceivedSucceeded
                (RpcRequestProto.SystemId rq) (RpcRequestProto.ModuleId rq) ;;;
            rpcHandlerLoop fuel
        | Some err =>
            if is_EOF err then ret Left
            else
              (if codes.is_Unavailable (status_Code err) then ret tt
               else log Err ("Cannot receive RPC Request: " +:+ Error err)) ;;;
              rq <- deref request ;;
              inc RPCReqReceivedFailed
                  (RpcRequestProto.SystemId rq) (RpcRequestProto.ModuleId rq) ;;;
              rpcHandlerLoop fuel
        end
  end.

(** The first goroutine of [initRPCStream]: the headers, then the loop. *)
Definition rpcHandler (fuel : nat) : M Loop :=
  sendMinionHeaders ;;;
  l <- rpcHandlerLoop fuel ;;
  match l with
  | Left => log Warn "Terminating RPC API handler" ;;; ret Left
  | Looping => ret Looping
  end.

(** [func (cli *GrpcClient) initRPCStream() error] *)
Definition initRPCStream : M (option error) :=
  emit (EvLock rpcMutex) ;;;
  p <- gets rpcStream ;;
  match p with
  | Some s => emit (EvCloseSend s)
  | None => ret tt
  end ;;;
  err <- RpcStreaming ;;
  match err with
  | Some e =>
      emit (EvUnlock rpcMutex) ;;;
      ret (Some (fmt_Errorf ("cannot initialize RPC API Stream: " +:+ Error e)))
  | None =>
      go RpcHandler ;;;
      go RpcSupervisor ;;;
      emit (EvUnlock rpcMutex) ;;;
      ret None
  end.

(** The [for] loop of the second goroutine of [initRPCStream]. *)
Fixpoint rpcSupervisorLoop (fuel : nat) : M Loop :=
  match fuel with
  | O => ret Looping
  | S fuel =>
      err <- initRPCStream ;;
      match err with
      | None => log Warn "RPC API stream restarted" ;;; ret Left
      | Some _ => emit (EvSleep 1000) ;;; rpcSupervisorLoop fuel
      end
  end.

(** The second goroutine of [initRPCStream]: it resumes when the context
    of the stream is done, then restarts the stream until that works. *)
Definition rpcSupervisor (fuel : nat) : M Loop :=
  p <- gets rpcStream ;;
  s <- deref p ;;
  emit (EvAwaitDone s) ;;;
  rpcSupervisorLoop fuel.

(** The request handler from the head of its loop on: what
    [rpcHandler] does after the headers. *)
Definition rpcHandlerResume (fuel : nat) : M Loop :=
  l <- rpcHandlerLoop fuel ;;
  match l with
  | Left => log Warn "Terminating RPC API handler" ;;; ret Left
  | Looping => ret Looping
  end.

(** Running a goroutine to the end of its body, or for [fuel] iterations
    of its loop. *)
Definition run (fuel : nat) (t : Task) : M Loop :=
  match t with
  | RpcHandler => rpcHandler fuel
  | RpcSupervisor => rpcSupervisor fuel
  | RpcWorker module request => rpcWorker module request ;;; ret Left
  | RpcHandlerLoop => rpcHandlerResume fuel
  | RpcSupervisorLoop => rpcSupervisorLoop fuel
  end.

(** What is left of a goroutine that is still in its loop. *)
Definition paused (t : Task) : Task :=
  match t with
  | RpcHandler | RpcHandlerLoop => RpcHandlerLoop
  | RpcSupervisor | RpcSupervisorLoop => RpcSupervisorLoop
  | RpcWorker module request => RpcWorker module request
  end.

(** ** Runs of the client

    What happens to a started client, one step at a time: [Start] or the
    supervisor opens the RPC stream, a sink module hands a message to
    [Send], or the scheduler picks the [i]-th goroutine that is waiting
    and lets it go on for [fuel] turns of its loop; a goroutine that is
    then still in its loop waits again, behind the goroutines started
    meanwhile, and reads the fields of the client anew when it goes on.
    A panic ends the process, and so the run.

    The scheduler of Go may switch goroutines at any instruction; here it
    switches between two turns of a loop only, so these are some of the
    runs of the program, not all of them.  They serve to exhibit runs that
    the program can make. *)
Inductive Action :=
| CallInitRPCStream
| CallSend (msg : SinkMessage.t)
| Resume (i fuel : nat).

Definition act (a : Action) : M unit :=
  match a with
  | CallInitRPCStream => initRPCStream ;;; ret tt
  | CallSend msg => Send msg ;;; ret tt
  | Resume i fuel =>
      ts <- gets goroutines ;;
      match ts !! i with
      | Some t =>
          modify (set_goroutines (delete i ts)) ;;;
          l <- run fuel t ;;
          match l with
          | Left => ret tt
          | Looping => go (paused t)
          end
      | None => ret tt
      end
  end.

Fixpoint execute (acts : list Action) : M unit :=
  match acts with
  | [] => ret tt
  | a :: rest => act a ;;; execute rest
  end.

End Client.

(** The world in which a computation ended. *)
Definition world_of {A} (r : Result A) : World :=
  match r with
  | Done _ w => w
  | Panic _ w => w
  end.

End broker.

(* ===================================================================== *)
(** * Package [sink]: the NX-OS telemetry module                          *)
(* ===================================================================== *)

Module sink.
Import api api_ext.

Section Nxos.
(** The handle of [api.Broker] that the module keeps. *)
Variable Broker : Type.

(** [net.Listen("tcp", addr)]: [nil] or the error. *)
Variable net_Listen : string -> option error.

(** [type NxosGrpcModule struct]; [server] tells whether a
    [grpc.NewServer()] has been stored in the field. *)
Record NxosGrpcModule := mkNxos {
  broker : option Broker;
  config : option MinionConfig;
  server : bool;
  port   : Z;
}.

(** [var nxosGrpcModule = &NxosGrpcModule{}] *)
Definition nxosGrpcModule : NxosGrpcModule :=
  {| broker := None; config := None; server := false; port := 0 |}.

Inductive Effect :=
| Warnf (msg : string)
| Infof (msg : string)
| NewServer
| RegisterGRPCMdtDialoutServer
| Listen (addr : string)
| GoServe.

(** [func (module *NxosGrpcModule) GetID() string] *)
Definition GetID (module : NxosGrpcModule) : string := "NXOS".

(** [func (module *NxosGrpcModule) Start(config, broker) error]: the
    returned error, the module afterwards and what was done.  The format
    of the [Infof] line ends in a line feed. *)
Definition Start (module : NxosGrpcModule) (cfg : MinionConfig) (b : Broker)
  : option error * NxosGrpcModule * list Effect :=
  let listener := GetListenerByParser cfg "NxosGrpcParser" in
  match listener with
  | None => (None, module, [Warnf "NX-OS Telemetry Module disabled"])
  | Some l =>
      if Port l =? 0
      then (None, module, [Warnf "NX-OS Telemetry Module disabled"])
      else
        let module :=
          {| broker := Some b; config := Some cfg; server := true; port := Port l |} in
        let started :=
          [NewServer; RegisterGRPCMdtDialoutServer;
           Infof ("Starting NX-OS telemetry gRPC server on port " +:+ pretty (Port l)
                  +:+ String (ascii_of_nat 10) "");
           Listen (":" +:+ pretty (Port l))] in
        match net_Listen (":" +:+ pretty (Port l)) with
        | Some err =>
            (Some (fmt_Errorf ("Error cannot start TCP listener: " +:+ Error err)),
             module, started)
        | None => (None, module, started ++ [GoServe])
        end
  end.

End Nxos.
End sink.

(* ===================================================================== *)
(** * Package [cmd]: the root command                                     *)
(* ===================================================================== *)

Module cmd.
Import api api_ext.

(** The two transports of the specification. *)
Inductive Transport := Streaming | PubSub.

(** Modelled from the spec: [broker.GetBroker] is called by the root
    command but its body is missing.  Section 3: "BrokerType ∈ {streaming,
    pubsub}", "BrokerType resolves to a known transport"; section 9: the
    implementation is chosen "at startup from BrokerType".  The streaming
    transport is named by the default of the root command, ["grpc"]; the
    pubsub transport is taken to be named ["kafka"], after the broker of
    the docker composition.  Any other name resolves to [nil]. *)
Definition GetBroker (cfg : MinionConfig) : option Transport :=
  if String.eqb (BrokerType cfg) "grpc" then Some Streaming
  else if String.eqb (BrokerType cfg) "kafka" then Some PubSub
  else None.

(** How the process ends: [log.Fatalf] (exit code 1), or the return of
    [rootHandler] after the interrupt signal and [client.Stop()]. *)
Inductive Outcome :=
| Fatal (msg : string)
| Stopped (cfg : MinionConfig) (client : Transport).

(** [func rootHandler(cmd *cobra.Command, args []string)] on the
    configuration and the listener flags; [client_Start] is what
    [client.Start(minionConfig)] returns. *)
Definition rootHandler (client_Start : MinionConfig -> Transport -> option error)
    (minionConfig : MinionConfig) (listeners : list string) : Outcome :=
  match IsValid minionConfig with
  | Some err => Fatal ("Invalid configuration: " +:+ err)
  | None =>
      let parsed := ParseListeners minionConfig listeners in
      match parse_error parsed with
      | Some err => Fatal ("Invalid listener configuration: " +:+ err)
      | None =>
          let minionConfig := parsed_config parsed in
          match GetBroker minionConfig with
          | None => Fatal "Cannot find broker implementation"
          | Some client =>
              match client_Start minionConfig client with
              | Some err =>
                  Fatal ("Cannot connect to OpenNMS gRPC server: " +:+ Error err)
              | None => Stopped minionConfig client
              end
          end
      end
  end.

End cmd.

(* ===================================================================== *)
(** * Vocabulary of the statements                                        *)
(* ===================================================================== *)

Module spec.
Import api api_ext cmd.


(** The listeners of the entries that [ParseListener] accepts, and the
    errors of those it rejects, in the order of the entries. *)
Definition accepted (csvs : list string) : list MinionListener :=
  omap (fun csv => match ParseListener csv with inr l => Some l | inl _ => None end) csvs.
Definition rejected (csvs : list string) : list string :=
  omap (fun csv => match ParseListener csv with inl e => Some e | inr _ => None end) csvs.

(** [IsValid] as the specification words it: ok exactly when the three
    fields are non-empty and the broker type resolves to a transport. *)
Definition IsValid_claim (cfg : MinionConfig) : Prop :=
  IsValid cfg = None <->
  (ID cfg <> "" /\ Location cfg <> "" /\ BrokerURL cfg <> "" /\ GetBroker cfg <> None).

(** The configuration of [TestConfiguration]: the YAML document sets no
    [brokerType], so the field has the zero value. *)
Definition test_config : MinionConfig :=
  {| ID := "go-minion1"; Location := "Test"; BrokerURL := "10.0.0.100:8990";
     BrokerType := ""; BrokerProperties := {[ "tls-enabled" := "true" ]};
     TrapPort := 11162; SyslogPort := 11514; NxosGrpcPort := 0;
     Listeners := [ mkListener "Netflow-5" "Netflow5UdpParser" 18877;
                    mkListener "Netflow-9" "Netflow9UdpParser" 14729 ] |}.

(** The listener flags of [TestConfiguration]. *)
Definition test_listeners : list string :=
  [ "Graphite,12003,ForwardParser"; "NXOS,50000,NxosGrpcParser";
    "Wrong1,1000"; "Wrong2,1001" ].

(** A configuration whose NX-OS listener is switched off by port 0. *)
Definition disabled_nxos_config : MinionConfig :=
  {| ID := "go-minion1"; Location := "Test"; BrokerURL := "10.0.0.100:8990";
     BrokerType := "grpc"; BrokerProperties := ∅;
     TrapPort := 1162; SyslogPort := 1514; NxosGrpcPort := 0;
     Listeners := [ mkListener "NXOS" "org.opennms.NxosGrpcParser" 0;
                    mkListener "NXOS-2" "NxosGrpcParser" 50001 ] |}.

Definition nameless_config : MinionConfig :=
  {| ID := ""; Location := "Test"; BrokerURL := "10.0.0.100:8990";
     BrokerType := "grpc"; BrokerProperties := ∅;
     TrapPort := 1162; SyslogPort := 1514; NxosGrpcPort := 0; Listeners := [] |}.

End spec.

(* ===================================================================== *)
(** * Vocabulary of the statements about the client                       *)
(* ===================================================================== *)

Module trace.
Import broker.

Definition is_SinkStreaming (e : Event) : bool :=
  match e with EvSinkStreaming _ => true | _ => false end.
Definition is_SinkSend (e : Event) : bool :=
  match e with EvSinkSend _ _ _ => true | _ => false end.
Definition is_RpcSend (e : Event) : bool :=
  match e with EvRpcSend _ _ _ => true | _ => false end.
Definition is_Execute (e : Event) : bool :=
  match e with EvExecute _ _ => true | _ => false end.

(** How often [onms.SinkStreaming] was called in a run of events. *)
Definition reinit_attempts (evs : list Event) : nat :=
  length (List.filter is_SinkStreaming evs).

(** [e] happens in [evs] right after mutex [m] is taken and right before
    it is released. *)
Definition under_mutex (m : Mutex) (e : Event) (evs : list Event) : Prop :=
  exists i : nat,
    evs !! i = Some (EvLock m)
    /\ evs !! S i = Some e
    /\ evs !! S (S i) = Some (EvUnlock m).

(** What the first lines of [Send] find: [None] when the Sink stream is
    there and the connection is Ready; otherwise [Some r] where [r] is the
    answer [onms.SinkStreaming] gives to the re-initialization. *)
Definition restart_answer (net : Net) (w : World) : option (option error) :=
  match sinkStream w with
  | None => Some (onms_SinkStreaming net (tick w))
  | Some _ =>
      if connectivity.is_Ready (conn_GetState net (tick w)) then None
      else Some (onms_SinkStreaming net (S (tick w)))
  end.





(** The counters that record failures. *)
Definition is_failure (c : Counter) : bool :=
  match c with
  | SinkMsgDeliveryFailed | RPCReqReceivedFailed
  | RPCReqProcessedFailed | RPCResSentFailed => true
  | _ => false
  end.

(** The world in which [sendResponse] is called by the worker of
    [request]: the span is open, [Execute] has run and the request is
    counted as processed. *)
Definition executed (request : RpcRequestProto.t) (w : World) : World :=
  set_metrics
    (Inc RPCReqProcessedSucceeded
       (RpcRequestProto.SystemId request) (RpcRequestProto.ModuleId request) (metrics w))
    (set_events
       (events w ++ [EvSpanStart "RPC";
                     EvExecute (RpcRequestProto.ModuleId request) request]) w).

(** The events that end the span of an RPC worker. *)
Definition span_end (err : option error) : list Event :=
  match err with
  | Some e => [EvSpanSetTag "failed" "true"; EvSpanLogKV "event" (Error e); EvSpanFinish]
  | None => [EvSpanFinish]
  end.

End trace.

(* ===================================================================== *)
(** * Worlds and networks of the examples                                 *)
(* ===================================================================== *)

Module example.
Import broker.

(** The server cannot be reached: the connection is in transient failure
    and no stream can be opened. *)
Definition net_down : Net :=
  {| conn_GetState := fun _ => connectivity.TransientFailure;
     onms_SinkStreaming := fun _ => Some (status_Error codes.Unavailable "connection refused");
     onms_RpcStreaming := fun _ => Some (status_Error codes.Unavailable "connection refused");
     stream_Send := fun _ => Some io_EOF;
     stream_Recv := fun _ => (None, Some (status_Error codes.Unavailable "transport is closing"));
     time_Now := fun _ => 1000 |}.

(** A started client with both streams open and nothing counted yet. *)
Definition started (modules : gmap string RPCModule) : World :=
  {| config := spec.disabled_nxos_config;
     rpcStream := Some 1%nat; sinkStream := Some 0%nat;
     metrics := ∅; rpcModules := modules;
     tick := 0; opened := 2; events := []; goroutines := [] |}.

Definition trap : SinkMessage.t :=
  SinkMessage.mk "" [] "go-minion1" "Test" "Trap".


(** The server is there: the connection is Ready, streams open, sends
    succeed; the clock reads 10 s.  One request arrives, [request], then
    the stream ends. *)
Definition net_up (request : RpcRequestProto.t) : Net :=
  {| conn_GetState := fun _ => connectivity.Ready;
     onms_SinkStreaming := fun _ => None;
     onms_RpcStreaming := fun _ => None;
     stream_Send := fun _ => None;
     stream_Recv := fun t => if (t <=? 3)%nat then (Some request, None)
                             else (None, Some io_EOF);
     time_Now := fun _ => 10000 |}.

(** The server is there and sends [request] whenever the client receives,
    on whatever stream. *)
Definition net_chatty (request : RpcRequestProto.t) : Net :=
  {| conn_GetState := fun _ => connectivity.Ready;
     onms_SinkStreaming := fun _ => None;
     onms_RpcStreaming := fun _ => None;
     stream_Send := fun _ => None;
     stream_Recv := fun _ => (Some request, None);
     time_Now := fun _ => 10000 |}.

(** The connection is Ready but the RPC stream is broken: [Recv] fails
    with a status error and, as the generated gRPC stub does on any error,
    returns no request with it. *)
Definition net_broken_stream : Net :=
  {| conn_GetState := fun _ => connectivity.Ready;
     onms_SinkStreaming := fun _ => None;
     onms_RpcStreaming := fun _ => None;
     stream_Send := fun _ => None;
     stream_Recv := fun _ => (None, Some (status_Error codes.Internal "stream terminated by RST_STREAM"));
     time_Now := fun _ => 10000 |}.

(** The module of scenario 4: it answers with the payload reversed. *)
Definition Echo : RPCModule :=
  {| GetID := "Echo";
     Execute := fun request =>
       Some {| RpcResponseProto.RpcId := RpcRequestProto.RpcId request;
               RpcResponseProto.RpcContent := rev (RpcRequestProto.RpcContent request);
               RpcResponseProto.SystemId := RpcRequestProto.SystemId request;
               RpcResponseProto.Location := RpcRequestProto.Location request;
               RpcResponseProto.ModuleId := RpcRequestProto.ModuleId request |} |}.

Definition hello : list Byte.byte := [Byte.x68; Byte.x65; Byte.x6c; Byte.x6c; Byte.x6f].

(** The request of scenario 5: its deadline was one second ago. *)
Definition expired_request : RpcRequestProto.t :=
  {| RpcRequestProto.RpcId := "r1"; RpcRequestProto.RpcContent := hello;
     RpcRequestProto.SystemId := "go-minion1"; RpcRequestProto.Location := "Test";
     RpcRequestProto.ModuleId := "Echo"; RpcRequestProto.ExpirationTime := 9000 |}.

Definition expired_response : RpcResponseProto.t :=
  {| RpcResponseProto.RpcId := "r1"; RpcResponseProto.RpcContent := rev hello;
     RpcResponseProto.SystemId := "go-minion1"; RpcResponseProto.Location := "Test";
     RpcResponseProto.ModuleId := "Echo" |}.

(** A client before [Start] has opened a stream. *)
Definition fresh (modules : gmap string RPCModule) : World :=
  {| config := spec.disabled_nxos_config;
     rpcStream := None; sinkStream := None;
     metrics := ∅; rpcModules := modules;
     tick := 0; opened := 0; events := []; goroutines := [] |}.

End example.


(* ===================================================================== *)
(** * Package [sink]: stopping the NX-OS module and its dial-out stream   *)
(* ===================================================================== *)

Module dialout.
Import api.

(** [mdt_dialout.MdtDialoutArgs], the fields the module reads. *)
Record MdtDialoutArgs := mkArgs {
  ReqId  : Z;
  Data   : list Byte.byte;
  Errors : string;
}.

(** What the module does to the outside. *)
Inductive Effect :=
| Warnf (msg : string)
| Debugf (msg : string)
| Errorf (msg : string)
| ServerStop
| Recv
| SendBytes (id : string) (bytes : list Byte.byte).

(** [func (module *NxosGrpcModule) Stop()] *)
Definition Stop {Broker : Type} (module : sink.NxosGrpcModule Broker) : list Effect :=
  Warnf "Stopping NX-OS telemetry gRPC server"
  :: (if sink.server Broker module then [ServerStop] else []).

(** How a run of [MdtDialout] stands when the answers of the stream are
    used up: it waits in [stream.Recv()], it has returned, or it has
    panicked. *)
Inductive Outcome :=
| Waiting
| Returned (err : option error)
| Panicked (msg : string).

Definition newline : string := String (ascii_of_nat 10) "".

Section Dialout.
Variable Broker : Type.

(** [wrapMessageToTelemetry(config, address, port, data)], whose body is not
    among the sources: the bytes to forward, or [nil]. *)
Variable wrapMessageToTelemetry :
  option MinionConfig -> string -> Z -> list Byte.byte -> option (list Byte.byte).

(** The [for] loop of [MdtDialout] on the answers of [stream.Recv()], in
    order; [peer] is the address of the peer, [None] when the context has
    none, in which case [peer] is a nil pointer and [peer.Addr] panics. *)
Fixpoint MdtDialout_loop (module : sink.NxosGrpcModule Broker) (peer : option string)
    (answers : list (error + MdtDialoutArgs)) : list Effect * Outcome :=
  match answers with
  | [] => ([Recv], Waiting)
  | inl err :: rest =>
      let line := if is_EOF err then "NX-OS session closed"
                  else "NX-OS session error: " +:+ Error err in
      let r := MdtDialout_loop module peer rest in
      (Recv :: Errorf line :: fst r, snd r)
  | inr dialoutArgs :: rest =>
      match peer with
      | None => ([Recv], Panicked broker.nil_dereference)
      | Some addr =>
          if (length (Data dialoutArgs) =? 0)%nat
             && negb (String.length (Errors dialoutArgs) =? 0)%nat
          then
            let r := MdtDialout_loop module peer rest in
            (Recv :: Errorf ("Received from client " +:+ addr +:+ ": "
                             +:+ Errors dialoutArgs +:+ newline) :: fst r, snd r)
          else
            let line :=
              "Received request with ID " +:+ pretty (ReqId dialoutArgs)
              +:+ " of " +:+ pretty (length (Data dialoutArgs))
              +:+ " bytes from " +:+ addr +:+ newline in
            let forwarded :=
              match wrapMessageToTelemetry (sink.config Broker module) addr
                      (sink.port Broker module mod 2 ^ 32) (Data dialoutArgs) with
              | Some bytes => [SendBytes (sink.GetID Broker module) bytes]
              | None => []
              end in
            let r := MdtDialout_loop module peer rest in
            (Recv :: Debugf line :: forwarded ++ fst r, snd r)
      end
  end.

(** [func (module *NxosGrpcModule) MdtDialout(stream) error] *)
Definition MdtDialout (module : sink.NxosGrpcModule Broker) (peer : option string)
    (answers : list (error + MdtDialoutArgs)) : list Effect * Outcome :=
  let accepted :=
    match peer with
    | Some addr =>
        [Debugf ("Accepted Cisco MDT GRPC dialout connection from " +:+ addr +:+ newline)]
    | None => []
    end in
  let r := MdtDialout_loop module peer answers in
  (accepted ++ fst r, snd r).

(** The bytes a message is forwarded with, if it is forwarded. *)
Definition forwards (module : sink.NxosGrpcModule Broker) (addr : string)
    (answer : error + MdtDialoutArgs) : option (list Byte.byte) :=
  match answer with
  | inl _ => None
  | inr dialoutArgs =>
      if (length (Data dialoutArgs) =? 0)%nat
         && negb (String.length (Errors dialoutArgs) =? 0)%nat
      then None
      else wrapMessageToTelemetry (sink.config Broker module) addr
             (sink.port Broker module mod 2 ^ 32) (Data dialoutArgs)
  end.

End Dialout.

Definition sent_bytes (e : Effect) : option (list Byte.byte) :=
  match e with SendBytes _ bytes => Some bytes | _ => None end.

Definition is_Recv (e : Effect) : bool :=
  match e with Recv => true | _ => false end.

End dialout.

(* ===================================================================== *)
(** * Package [cmd]: reading the configuration                            *)
(* ===================================================================== *)

Module viper.

(** The calls [initConfig] makes, in order; [Println] is [fmt.Println]. *)
Inductive Call :=
| SetConfigFile (file : string)
| AddConfigPath (path : string)
| SetConfigName (name : string)
| SetEnvPrefix (prefix : string)
| AutomaticEnv
| ReadInConfig
| Println (line : string)
| Unmarshal.

Definition is_AddConfigPath (c : Call) : bool :=
  match c with AddConfigPath _ => true | _ => false end.

Definition is_Println (c : Call) : bool :=
  match c with Println _ => true | _ => false end.

(** [func initConfig()]: [cfgFile] is the value of the [--config] flag,
    [homedir_Dir] the Go pair that [homedir.Dir()] returns,
    [ReadInConfig_err] what [viper.ReadInConfig()] returns and
    [ConfigFileUsed] what [viper.ConfigFileUsed()] returns. *)
Definition initConfig (cfgFile : string) (homedir_Dir : string * option error)
    (ReadInConfig_err : option error) (ConfigFileUsed : string) : list Call :=
  (if negb (String.eqb cfgFile "") then [SetConfigFile cfgFile]
   else
     (match snd homedir_Dir with
      | Some _ => [AddConfigPath (fst homedir_Dir)]
      | None => []
      end)
     ++ [AddConfigPath "."; SetConfigName ".gominion"])
  ++ [SetEnvPrefix "GOMINION"; AutomaticEnv; ReadInConfig]
  ++ (match ReadInConfig_err with
      | None => [Println ("Using config file: " +:+ ConfigFileUsed)]
      | Some _ => []
      end)
  ++ [Unmarshal].

End viper.

(* ===================================================================== *)
(** * Package [broker]: transport credentials, [Start] and [Stop]         *)
(* ===================================================================== *)

Module startup.
Import broker.
Local Open Scope go_scope.

(** [tls.Config], the fields that are set: [RootCAs] is [None] for the
    nil pool and otherwise the PEM blocks appended to a new pool. *)
Record tls_Config (Certificate : Type) := mkTLS {
  RootCAs      : option (list (list Byte.byte));
  Certificates : list Certificate;
}.
Arguments mkTLS {Certificate} RootCAs Certificates.
Arguments RootCAs {Certificate} t.
Arguments Certificates {Certificate} t.

(** What [getTransportCredentials] does to the outside. *)
Inductive Step :=
| Infof (msg : string)
| ReadFile (path : string)
| LoadX509KeyPair (certFile keyFile : string).

Definition is_LoadX509KeyPair (st : Step) : bool :=
  match st with LoadX509KeyPair _ _ => true | _ => false end.

Section Credentials.
Variable Certificate : Type.

(** [cli.config.GetBrokerProperty(name)], whose body is not among the
    sources. *)
Variable GetBrokerProperty : string -> string.

(** [ioutil.ReadFile], [certPool.AppendCertsFromPEM] on a new pool, and
    [tls.LoadX509KeyPair]. *)
Variable ioutil_ReadFile : string -> error + list Byte.byte.
Variable AppendCertsFromPEM : list Byte.byte -> bool.
Variable tls_LoadX509KeyPair : string -> string -> error + Certificate.

(** The first half of [getTransportCredentials]: the pool of root
    certificates, or the error that ends the function. *)
Definition load_RootCAs : (error + option (list (list Byte.byte))) * list Step :=
  let srvCertPath := GetBrokerProperty "ca-cert-path" in
  if negb (String.eqb srvCertPath "") then
    match ioutil_ReadFile srvCertPath with
    | inr certificate =>
        if AppendCertsFromPEM certificate
        then (inr (Some [certificate]),
              [Infof "Loading CA certificate"; ReadFile srvCertPath])
        else (inl (fmt_Errorf "failed to append certs"),
              [Infof "Loading CA certificate"; ReadFile srvCertPath])
    | inl err => (inl err, [Infof "Loading CA certificate"; ReadFile srvCertPath])
    end
  else (inr None, []).

(** [func (cli *GrpcClient) getTransportCredentials()
      (credentials.TransportCredentials, error)] *)
Definition getTransportCredentials : (error + tls_Config Certificate) * list Step :=
  match load_RootCAs with
  | (inl err, steps) => (inl err, steps)
  | (inr pool, steps) =>
      let cliCertPath := GetBrokerProperty "client-cert-path" in
      let cliKeyPath := GetBrokerProperty "client-key-path" in
      if negb (String.eqb cliCertPath "") && negb (String.eqb cliKeyPath "") then
        let steps := steps ++ [Infof "Loading Client certificate for mTLS";
                               LoadX509KeyPair cliCertPath cliKeyPath] in
        match tls_LoadX509KeyPair cliCertPath cliKeyPath with
        | inl err => (inl err, steps)
        | inr certificate => (inr (mkTLS pool [certificate]), steps)
        end
      else (inr (mkTLS pool []), steps)
  end.

End Credentials.

(** The options [Start] dials with. *)
Inductive DialOption :=
| WithBlock
| WithStreamInterceptor_zap
| WithTransportCredentials
| WithInsecure
| WithStreamInterceptor_prometheus.

(** What a step of [getTransportCredentials] is among the events of the
    client: a line of the log, or the read of a file. *)
Definition event_of (st : Step) : Event :=
  match st with
  | Infof msg => EvLog Info msg
  | ReadFile path => EvReadFile path
  | LoadX509KeyPair certFile keyFile => EvLoadX509KeyPair certFile keyFile
  end.

(** The steps of a call, made one after the other. *)
Fixpoint perform (steps : list Step) : M unit :=
  match steps with
  | [] => ret tt
  | st :: rest => emit (event_of st) ;;; perform rest
  end.

Section Start.
Variable net : Net.

(** What [Start] calls outside the modelled client: [initTracing], what
    [getTransportCredentials] calls, [cli.config.StatsPort], [grpc.Dial]
    on the broker URL and the options, and [cli.registry.StartModules],
    which may do anything to the client. *)
Variable initTracing : option error.
Variable Certificate : Type.
Variable GetBrokerProperty : string -> string.
Variable ioutil_ReadFile : string -> error + list Byte.byte.
Variable AppendCertsFromPEM : list Byte.byte -> bool.
Variable tls_LoadX509KeyPair : string -> string -> error + Certificate.
Variable StatsPort : Z.
Variable grpc_Dial : string -> list DialOption -> option error.
Variable StartModules : M (option error).

(** The dial options [Start] builds. *)
Definition dial_options : list DialOption :=
  [WithBlock; WithStreamInterceptor_zap]
  ++ (if String.eqb (GetBrokerProperty "tls-enabled") "true"
      then [WithTransportCredentials] else [WithInsecure])
  ++ (if 0 <? StatsPort then [WithStreamInterceptor_prometheus] else []).

(** The call [cli.getTransportCredentials()] of [Start]: the steps of the
    function happen, and its error, if any, is what is left of its
    result. *)
Definition credentials : M (option error) :=
  let result := getTransportCredentials Certificate GetBrokerProperty
                  ioutil_ReadFile AppendCertsFromPEM tls_LoadX509KeyPair in
  perform (snd result) ;;;
  match fst result with
  | inl err => ret (Some err)
  | inr _ => ret None
  end.

(** [func (cli *GrpcClient) Start() error]; [has_config], [has_registry]
    and [has_metrics] tell whether the fields of that name are set. *)
Definition Start (has_config has_registry has_metrics : bool) : M (option error) :=
  if negb has_config then ret (Some (fmt_Errorf "minion configuration required"))
  else if negb has_registry then ret (Some (fmt_Errorf "sink registry required"))
  else if negb has_metrics then ret (Some (fmt_Errorf "prometheus Metrics required"))
  else
    match initTracing with
    | Some err => ret (Some err)
    | None =>
        secured <- (if String.eqb (GetBrokerProperty "tls-enabled") "true" then
                      log Info "Enabling TLS" ;;; credentials
                    else log Info "Using Insecure Connection" ;;; ret None) ;;
        match secured with
        | Some err => ret (Some err)
        | None =>
            url <- gets (fun w => api.BrokerURL (config w)) ;;
            match grpc_Dial url dial_options with
            | Some err => ret (Some (fmt_Errorf ("cannot dial gRPC server: " +:+ Error err)))
            | None =>
                log Info "Starting Sink API Stream" ;;;
                err <- initSinkStream net ;;
                match err with
                | Some e => ret (Some e)
                | None =>
                    err <- StartModules ;;
                    match err with
                    | Some e => ret (Some e)
                    | None =>
                        log Info "Starting RPC API Stream" ;;;
                        err <- initRPCStream net ;;
                        match err with
                        | Some e => ret (Some e)
                        | None => ret None
                        end
                    end
                end
            end
        end
    end.

(** What has happened when [Start] dials: the line of the log that tells
    whether TLS is used and, with TLS, the steps of
    [getTransportCredentials]. *)
Definition security_events : list Event :=
  if String.eqb (GetBrokerProperty "tls-enabled") "true" then
    EvLog Info "Enabling TLS"
    :: map event_of
         (snd (getTransportCredentials Certificate GetBrokerProperty
                 ioutil_ReadFile AppendCertsFromPEM tls_LoadX509KeyPair))
  else [EvLog Info "Using Insecure Connection"].

(** The error of [getTransportCredentials] that ends [Start], if TLS is
    enabled and there is one. *)
Definition credentials_error : option error :=
  if String.eqb (GetBrokerProperty "tls-enabled") "true" then
    match fst (getTransportCredentials Certificate GetBrokerProperty
                 ioutil_ReadFile AppendCertsFromPEM tls_LoadX509KeyPair) with
    | inl err => Some err
    | inr _ => None
    end
  else None.

(** [func (cli *GrpcClient) Stop()]; [conn.Close()] and
    [traceCloser.Close()] do not touch what is modelled of the client. *)
Definition Stop (StopModules : M unit) : M unit :=
  StopModules ;;;
  log Warn "Stopping gRPC client" ;;;
  rpc <- gets rpcStream ;;
  match rpc with
  | Some s => emit (EvCloseSend s)
  | None => ret tt
  end ;;;
  sink <- gets sinkStream ;;
  match sink with
  | Some s => emit (EvCloseSend s)
  | None => ret tt
  end ;;;
  log Info "Good bye".

End Start.

Definition opens_stream (e : Event) : bool :=
  match e with
  | EvSinkStreaming _ | EvRpcStreaming _ => true
  | _ => false
  end.

(** The events that leave the streams alone: lines of the log and reads
    of files. *)
Definition off_stream (e : Event) : bool :=
  match e with
  | EvLog _ _ | EvReadFile _ | EvLoadX509KeyPair _ _ => true
  | _ => false
  end.

End startup.

(* ===================================================================== *)
(** * Vocabulary of the further properties                                *)
(* ===================================================================== *)

Module more.
Import broker trace.

(** The tick at which [Send] asks the stream to send, when it gets that
    far: after the state of the connection was read, if a stream was
    there, and after the re-initialization, if there was one. *)
Definition send_tick (net : Net) (w : World) : nat :=
  match sinkStream w with
  | None => S (tick w)
  | Some _ =>
      if connectivity.is_Ready (conn_GetState net (tick w)) then S (tick w)
      else S (S (tick w))
  end.

(** What [Send] returns for what the stream answered. *)
Definition Send_result (answer : option error) : option error :=
  match answer with
  | None => None
  | Some io_EOF => Some (fmt_Errorf "server unreachable")
  | Some e => Some e
  end.

(** The RPC stream is there and the connection is Ready. *)
Definition rpc_available (net : Net) (w : World) : bool :=
  match rpcStream w with
  | Some _ => connectivity.is_Ready (conn_GetState net (tick w))
  | None => false
  end.

(** The [CloseSend] of the stream that is replaced, if there is one. *)
Definition close_old (old : option Stream) : list Event :=
  match old with
  | Some s => [EvCloseSend s]
  | None => []
  end.

Definition is_Sleep (e : Event) : bool :=
  match e with EvSleep _ => true | _ => false end.

(** How often a goroutine has slept. *)
Definition sleeps (evs : list Event) : nat := length (List.filter is_Sleep evs).

(** The connection is Ready but the server has closed the streams: every
    send on a stream answers [io.EOF]. *)
Definition net_eof : Net :=
  {| conn_GetState := fun _ => connectivity.Ready;
     onms_SinkStreaming := fun _ => None;
     onms_RpcStreaming := fun _ => None;
     stream_Send := fun _ => Some io_EOF;
     stream_Recv := fun _ => (None, Some io_EOF);
     time_Now := fun _ => 10000 |}.

(** The server comes back after two refused attempts to open a stream. *)
Definition net_flaky : Net :=
  {| conn_GetState := fun _ => connectivity.Ready;
     onms_SinkStreaming := fun t => if (t <? 2)%nat
                                    then Some (status_Error codes.Unavailable "connection refused")
                                    else None;
     onms_RpcStreaming := fun t => if (t <? 2)%nat
                                   then Some (status_Error codes.Unavailable "connection refused")
                                   else None;
     stream_Send := fun _ => None;
     stream_Recv := fun _ => (None, Some io_EOF);
     time_Now := fun _ => 10000 |}.

End more.

(* ===================================================================== *)
(** * Properties of the configuration model                               *)
(* ===================================================================== *)

Section ConfigProperties.
Import api api_ext.


(** A string without separator is its own single piece. *)
Lemma Split_lacks s sep :
  strings.lacks sep s = true -> strings.Split s sep = [s].
Proof.
  induction s as [|c rest IH]; simpl; [reflexivity|].
  intros H. apply andb_prop in H as [Hc Hrest].
  apply negb_true_iff in Hc. rewrite Hc, (IH Hrest). reflexivity.
Qed.

(** Up to its first separator, a string is its first piece. *)
Lemma Split_app a b sep :
  strings.lacks sep a = true ->
  strings.Split (a +:+ String sep b) sep = a :: strings.Split b sep.
Proof.
  induction a as [|c rest IH]; simpl; intros H.
  - rewrite Ascii.eqb_refl. reflexivity.
  - apply andb_prop in H as [Hc Hrest]. apply negb_true_iff in Hc.
    rewrite Hc, (IH Hrest). reflexivity.
Qed.








End ConfigProperties.

Section ConfigTheorems.
Import api api_ext cmd.

Lemma append_not_empty pre c s : pre +:+ String c s <> "".
Proof. destruct pre; discriminate. Qed.




Lemma find_listener_None p ls :
  find_listener p ls = None <-> (forall l, l ∈ ls -> p l = false).
Proof.
  induction ls as [|x ls IH]; simpl.
  - split; [intros _ l Hl; inversion Hl | reflexivity].
  - destruct (p x) eqn:Hp.
    + split; [discriminate|]. intros H. specialize (H x (list_elem_of_here _ _)). congruence.
    + rewrite IH. split.
      * intros H l Hl. inversion Hl; subst; auto.
      * intros H l Hl. apply H. right. exact Hl.
Qed.



(** ** Validation *)

Lemma ParseListeners_loop_spec cfg errs csvs :
  let r := ParseListeners_loop cfg errs csvs in
  parse_error r = None
  /\ Listeners (parsed_config r) = Listeners cfg ++ spec.accepted csvs
  /\ entry_errors r = errs ++ spec.rejected csvs
  /\ ID (parsed_config r) = ID cfg
  /\ Location (parsed_config r) = Location cfg
  /\ BrokerURL (parsed_config r) = BrokerURL cfg
  /\ BrokerType (parsed_config r) = BrokerType cfg.
Proof.
  revert cfg errs. induction csvs as [|csv rest IH]; intros cfg errs; cbn.
  - rewrite !app_nil_r. repeat split.
  - destruct (ParseListener csv) as [err | l].
    + specialize (IH cfg (errs ++ [err])). cbn in IH.
      destruct IH as (H1 & H2 & H3 & H4). rewrite <- app_assoc in H3.
      repeat split; tauto.
    + specialize (IH (add_listener cfg l) errs). cbn in IH.
      destruct IH as (H1 & H2 & H3 & H4). rewrite <- app_assoc in H2.
      repeat split; tauto.
Qed.

Lemma IsValid_None cfg :
  IsValid cfg = None <-> ID cfg <> "" /\ Location cfg <> "" /\ BrokerURL cfg <> "".
Proof.
  unfold IsValid.
  destruct (String.eqb_spec (ID cfg) ""), (String.eqb_spec (Location cfg) ""),
    (String.eqb_spec (BrokerURL cfg) ""); split; try discriminate; tauto.
Qed.

(** C2, as the code has it.  [IsValid] returns [nil] if and only if [ID],
    [Location] and [BrokerURL] are all non-empty; it does not look at
    [BrokerType].  An error of [IsValid] is fatal at startup.  The broker
    type is resolved later by the root command, which also ends the
    process when no broker implementation is found. *)
Theorem IsValid_iff_identity_nonempty (cfg : MinionConfig) :
  (IsValid cfg = None <-> ID cfg <> "" /\ Location cfg <> "" /\ BrokerURL cfg <> "")
  /\ (forall start listeners err,
        IsValid cfg = Some err ->
        rootHandler start cfg listeners = Fatal ("Invalid configuration: " +:+ err))
  /\ (forall start listeners,
        IsValid cfg = None -> GetBroker cfg = None ->
        rootHandler start cfg listeners = Fatal "Cannot find broker implementation").
Proof.
  split; [apply IsValid_None|]. split.
  - intros start listeners err H. unfold rootHandler. rewrite H. reflexivity.
  - intros start listeners Hv Hb. unfold rootHandler. rewrite Hv.
    destruct (ParseListeners_loop_spec cfg [] listeners) as (He & _ & _ & _ & _ & _ & Ht).
    fold (ParseListeners cfg listeners) in He, Ht. rewrite He.
    unfold GetBroker in *. rewrite Ht.
    destruct (String.eqb (BrokerType cfg) "grpc"); [discriminate|].
    destruct (String.eqb (BrokerType cfg) "kafka"); [discriminate|]. reflexivity.
Qed.

Lemma IsValid_iff_identity_nonempty_witness :
  IsValid spec.test_config = None
  /\ rootHandler (fun _ _ => None) spec.nameless_config []
     = Fatal "Invalid configuration: Minion ID required"
  /\ rootHandler (fun _ _ => None) spec.test_config spec.test_listeners
     = Fatal "Cannot find broker implementation".
Proof.
  pose proof (IsValid_iff_identity_nonempty spec.test_config) as (Hiff & _ & Hbroker).
  pose proof (IsValid_iff_identity_nonempty spec.nameless_config) as (_ & Hfatal & _).
  assert (Hv : IsValid spec.test_config = None).
  { apply Hiff. repeat split; discriminate. }
  split; [exact Hv|]. split.
  - apply Hfatal. reflexivity.
  - apply Hbroker; [exact Hv | reflexivity].
Defined.

(** C2 as stated fails: the configuration of [TestConfiguration] has
    identity, location and broker URL but an empty broker type, which names
    no transport; [IsValid] accepts it, as the test asserts. *)
Lemma IsValid_accepts_unknown_BrokerType :
  ~ spec.IsValid_claim spec.test_config.
Proof.
  unfold spec.IsValid_claim. intros [H _].
  specialize (H eq_refl). destruct H as (_ & _ & _ & H). apply H. reflexivity.
Qed.

End ConfigTheorems.

Section ListenerTheorems.
Import api api_ext cmd.

Lemma accepted_elem csv l csvs :
  csv ∈ csvs -> ParseListener csv = inr l -> l ∈ spec.accepted csvs.
Proof.
  intros Hin Hp. unfold spec.accepted. apply list_elem_of_omap.
  exists csv. rewrite Hp. split; [exact Hin | reflexivity].
Qed.

Lemma rejected_elem csv e csvs :
  csv ∈ csvs -> ParseListener csv = inl e -> e ∈ spec.rejected csvs.
Proof.
  intros Hin Hp. unfold spec.rejected. apply list_elem_of_omap.
  exists csv. rewrite Hp. split; [exact Hin | reflexivity].
Qed.

(** An entry [Name,Port,Parser] whose fields have no comma and whose port
    is a decimal number is accepted. *)
Lemma ParseListener_well_formed name port parser p :
  strings.lacks comma name = true ->
  strings.lacks comma port = true ->
  strings.lacks comma parser = true ->
  parse_port port = Some p ->
  ParseListener (name +:+ String comma (port +:+ String comma parser))
  = inr (mkListener name parser p).
Proof.
  intros Hn Hp Hparser Hport. unfold ParseListener.
  rewrite (Split_app _ _ _ Hn), (Split_app _ _ _ Hp), (Split_lacks _ _ Hparser), Hport.
  reflexivity.
Qed.

(** An entry with fewer than three fields is rejected. *)
Lemma ParseListener_short csv :
  (length (strings.Split csv comma) < 3)%nat -> exists err, ParseListener csv = inl err.
Proof.
  unfold ParseListener. intros H.
  destruct (strings.Split csv comma) as [|a [|b [|c [|d rest]]]]; cbn in H; try lia;
    eexists; reflexivity.
Qed.

(** C8.  [ParseListeners] adds every well-formed entry [Name,Port,Parser]
    to the listeners of the configuration, in order, after those already
    there.  An entry with fewer than three fields is rejected with an error
    of its own; it neither keeps the other entries from being added nor
    makes [ParseListeners] return an error, so the root command does not
    end at the listener step and goes on to start the agent with the
    well-formed listeners. *)
Theorem ParseListeners_rejects_per_entry (cfg : MinionConfig) (csvs : list string) :
  let r := ParseListeners cfg csvs in
  parse_error r = None
  /\ Listeners (parsed_config r) = Listeners cfg ++ spec.accepted csvs
  /\ entry_errors r = spec.rejected csvs
  /\ (forall name port parser p,
        strings.lacks comma name = true ->
        strings.lacks comma port = true ->
        strings.lacks comma parser = true ->
        parse_port port = Some p ->
        name +:+ String comma (port +:+ String comma parser) ∈ csvs ->
        mkListener name parser p ∈ Listeners (parsed_config r))
  /\ (forall csv,
        csv ∈ csvs -> (length (strings.Split csv comma) < 3)%nat ->
        exists err, ParseListener csv = inl err /\ err ∈ entry_errors r)
  /\ (forall start,
        IsValid cfg = None ->
        rootHandler start cfg csvs =
        match GetBroker cfg with
        | None => Fatal "Cannot find broker implementation"
        | Some client =>
            match start (parsed_config r) client with
            | Some err => Fatal ("Cannot connect to OpenNMS gRPC server: " +:+ Error err)
            | None => Stopped (parsed_config r) client
            end
        end).
Proof.
  intros r.
  destruct (ParseListeners_loop_spec cfg [] csvs) as (He & Hl & Hr & _ & _ & _ & Ht).
  fold (ParseListeners cfg csvs) in He, Hl, Hr, Ht. fold r in He, Hl, Hr, Ht.
  cbn [app] in Hr.
  split; [exact He|]. split; [exact Hl|]. split; [exact Hr|]. split; [|split].
  - intros name port parser p Hn Hp Hparser Hport Hin.
    rewrite Hl. apply elem_of_app. right.
    eapply accepted_elem; [exact Hin|].
    apply ParseListener_well_formed; assumption.
  - intros csv Hin Hshort. destruct (ParseListener_short csv Hshort) as [err Herr].
    exists err. split; [exact Herr|]. rewrite Hr. eapply rejected_elem; eassumption.
  - intros start Hv. unfold rootHandler. rewrite Hv. fold r. rewrite He.
    unfold GetBroker. rewrite Ht. reflexivity.
Qed.

Lemma ParseListeners_rejects_per_entry_witness :
  let r := ParseListeners spec.test_config spec.test_listeners in
  mkListener "Graphite" "ForwardParser" 12003 ∈ Listeners (parsed_config r)
  /\ (exists err, ParseListener "Wrong1,1000" = inl err /\ err ∈ entry_errors r)
  /\ rootHandler (fun _ _ => None) spec.test_config spec.test_listeners
     = Fatal "Cannot find broker implementation".
Proof.
  pose proof (ParseListeners_rejects_per_entry spec.test_config spec.test_listeners)
    as (_ & _ & _ & Hadd & Hrej & Hroot).
  split; [|split].
  - apply (Hadd "Graphite" "12003" "ForwardParser" 12003);
      try reflexivity.
    apply list_elem_of_here.
  - apply (Hrej "Wrong1,1000").
    + do 2 apply list_elem_of_further. apply list_elem_of_here.
    + vm_compute. lia.
  - rewrite (Hroot (fun _ _ => None)); reflexivity.
Defined.

(** [TestConfiguration]: the assertions of the test hold of the model. *)
Example TestConfiguration :
  let config := spec.test_config in
  IsValid config = None
  /\ ID config = "go-minion1"
  /\ length (Listeners config) = 2%nat
  /\ BrokerProperties config !! "tls-enabled" = Some "true"
  /\ (exists netflow, GetListener config "Netflow-5" = Some netflow
        /\ Port netflow = 18877 /\ Is netflow "Netflow5UdpParser" = true)
  /\ GetListener config "SFlow" = None
  /\ (exists netflow, GetListenerByParser config "Netflow9UdpParser" = Some netflow
        /\ Port netflow = 14729)
  /\ GetListenerByParser config "SFlowUdpParser" = None
  /\ (let config := parsed_config (ParseListeners config spec.test_listeners) in
      length (Listeners config) = 4%nat
      /\ exists graphite, GetListener config "Graphite" = Some graphite
           /\ Is graphite "ForwardParser" = true).
Proof.
  cbn zeta. repeat split; try reflexivity.
  - eexists. repeat split; reflexivity.
  - eexists. repeat split; reflexivity.
  - eexists. repeat split; reflexivity.
Qed.

End ListenerTheorems.

Section SinkTheorems.
Import api api_ext.

(** C9.  When no listener of the configuration has a parser that matches
    ["NxosGrpcParser"], or the first that does has port 0, [Start] of the
    NX-OS module logs the warning and returns [nil]; it creates no server,
    opens no TCP listener, starts no goroutine and leaves the module as it
    was. *)
Theorem NxosGrpc_Start_idle {Broker : Type} (net_Listen : string -> option error)
    (module : sink.NxosGrpcModule Broker) (cfg : MinionConfig) (b : Broker) :
  (forall l, l ∈ Listeners cfg -> Is l "NxosGrpcParser" = false)
  \/ (exists l, GetListenerByParser cfg "NxosGrpcParser" = Some l /\ Port l = 0) ->
  sink.Start Broker net_Listen module cfg b
  = (None, module, [sink.Warnf "NX-OS Telemetry Module disabled"]).
Proof.
  unfold sink.Start. intros [Hnone | (l & Hl & Hport)].
  - apply find_listener_None in Hnone. unfold GetListenerByParser.
    rewrite Hnone. reflexivity.
  - rewrite Hl, Hport. reflexivity.
Qed.

Lemma NxosGrpc_Start_idle_witness :
  sink.Start unit (fun _ => None) (sink.nxosGrpcModule unit) spec.test_config tt
  = (None, sink.nxosGrpcModule unit, [sink.Warnf "NX-OS Telemetry Module disabled"])
  /\ sink.Start unit (fun _ => None) (sink.nxosGrpcModule unit)
       spec.disabled_nxos_config tt
     = (None, sink.nxosGrpcModule unit, [sink.Warnf "NX-OS Telemetry Module disabled"]).
Proof.
  split.
  - apply NxosGrpc_Start_idle. left. intros l Hl.
    apply elem_of_cons in Hl as [-> | Hl]; [reflexivity|].
    apply elem_of_cons in Hl as [-> | Hl]; [reflexivity|].
    inversion Hl.
  - apply NxosGrpc_Start_idle. right.
    exists (mkListener "NXOS" "org.opennms.NxosGrpcParser" 0). split; reflexivity.
Defined.

(** With a matching listener on a port other than 0 the module does start
    its server. *)
Example NxosGrpc_Start_serves :
  sink.Start unit (fun _ => None) (sink.nxosGrpcModule unit)
    (parsed_config (ParseListeners spec.test_config spec.test_listeners)) tt
  = (None,
     sink.mkNxos unit (Some tt)
       (Some (parsed_config (ParseListeners spec.test_config spec.test_listeners)))
       true 50000,
     [sink.NewServer; sink.RegisterGRPCMdtDialoutServer;
      sink.Infof ("Starting NX-OS telemetry gRPC server on port 50000"
                  +:+ String (ascii_of_nat 10) "");
      sink.Listen ":50000"; sink.GoServe]).
Proof. vm_compute. reflexivity. Qed.

End SinkTheorems.

(* ===================================================================== *)
(** * Properties of the gRPC client                                       *)
(* ===================================================================== *)

(** Unfolds the client code on a world and computes as far as the answers
    of the outside are known. *)
Ltac go_unfold :=
  unfold broker.act, broker.run, broker.rpcHandler, broker.rpcSupervisor,
    broker.Send, broker.sendResponse, broker.rpcWorker,
    broker.processRequest, broker.sendMinionHeaders, broker.initRPCStream,
    broker.initSinkStream, broker.unavailable, broker.SinkStreaming,
    broker.RpcStreaming, broker.sinkStream_Send, broker.rpcStream_Send,
    broker.rpcStream_Recv, broker.GetState, broker.ask, broker.log, broker.emit,
    broker.go, broker.inc, broker.deref, broker.bind, broker.ret, broker.gets,
    broker.modify, broker.panic, broker.set_rpcStream, broker.set_sinkStream,
    broker.set_metrics, broker.set_tick, broker.set_opened, broker.set_events,
    broker.set_goroutines in *.

Ltac go_step :=
  first
    [ progress cbn
    | match goal with
      | H : ?x = _ |- context [?x] => rewrite H
      end ].

Ltac go_run := go_unfold; repeat go_step.

(** Finds the position of a locked send among the new events. *)
Ltac find_under_mutex :=
  unfold trace.under_mutex;
  (exists 0%nat + exists 1%nat + exists 2%nat + exists 3%nat + exists 4%nat
   + exists 5%nat + exists 6%nat + exists 7%nat + exists 8%nat);
  solve [repeat split; reflexivity].

Section SendTheorems.
Import broker trace.

Variable net : Net.

(** C6.  [Send] never panics.  When the Sink stream is absent or the
    connection is not Ready it calls [initSinkStream] once, so
    [onms.SinkStreaming] is called once; otherwise not at all.  When that
    re-initialization fails, [Send] returns the error of [initSinkStream]
    and nothing is sent on a stream.  In the other cases the message is
    sent on the Sink stream between taking and releasing [sinkMutex]. *)
Theorem Send_reinitializes_at_most_once (msg : SinkMessage.t) (w : World) :
  exists res w' new,
    Send net msg w = Done res w'
    /\ events w' = events w ++ new
    /\ (reinit_attempts new <= 1)%nat
    /\ match restart_answer net w with
       | Some (Some e) =>
           reinit_attempts new = 1%nat
           /\ res = Some (fmt_Errorf ("cannot initialize Sink API Stream: " +:+ Error e))
           /\ (exists w1,
                 initSinkStream net (world_of (unavailable net sinkStream w))
                 = Done res w1)
           /\ (forall ev, ev ∈ new -> is_SinkSend ev = false)
       | Some None =>
           reinit_attempts new = 1%nat
           /\ exists s r,
                sinkStream w' = Some s
                /\ under_mutex sinkMutex (EvSinkSend s msg r) new
       | None =>
           reinit_attempts new = 0%nat
           /\ exists s r,
                sinkStream w = Some s
                /\ sinkStream w' = Some s
                /\ under_mutex sinkMutex (EvSinkSend s msg r) new
       end.
Proof.
  unfold restart_answer.
  destruct (sinkStream w) as [s|] eqn:Hs.
  - destruct (connectivity.is_Ready (conn_GetState net (tick w))) eqn:Hready.
    + destruct (stream_Send net (S (tick w))) as [e|] eqn:Hsend; go_run;
        rewrite <- ?app_assoc; do 3 eexists;
        (split; [reflexivity|]); (split; [reflexivity|]);
        (split; [cbn; lia|]); (split; [reflexivity|]);
        exists s; eexists; (split; [reflexivity|]); (split; [reflexivity|]);
        find_under_mutex.
    + destruct (onms_SinkStreaming net (S (tick w))) as [e|] eqn:Hopen.
      * go_run. rewrite <- ?app_assoc. do 3 eexists.
        split; [reflexivity|]. split; [reflexivity|]. split; [cbn; lia|].
        split; [reflexivity|]. split; [reflexivity|]. split; [eexists; reflexivity|].
        intros ev Hev. cbn in Hev.
        repeat (apply elem_of_cons in Hev as [-> | Hev]; [reflexivity|]).
        inversion Hev.
      * destruct (stream_Send net (S (S (tick w)))) as [e|] eqn:Hsend; go_run;
          rewrite <- ?app_assoc; do 3 eexists;
          (split; [reflexivity|]); (split; [reflexivity|]);
          (split; [cbn; lia|]); (split; [reflexivity|]);
          do 2 eexists; (split; [reflexivity|]); find_under_mutex.
  - destruct (onms_SinkStreaming net (tick w)) as [e|] eqn:Hopen.
    + go_run. rewrite <- ?app_assoc. do 3 eexists.
      split; [reflexivity|]. split; [reflexivity|]. split; [cbn; lia|].
      split; [reflexivity|]. split; [reflexivity|]. split; [eexists; reflexivity|].
      intros ev Hev. cbn in Hev.
      repeat (apply elem_of_cons in Hev as [-> | Hev]; [reflexivity|]).
      inversion Hev.
    + destruct (stream_Send net (S (tick w))) as [e|] eqn:Hsend; go_run;
        rewrite <- ?app_assoc; do 3 eexists;
        (split; [reflexivity|]); (split; [reflexivity|]);
        (split; [cbn; lia|]); (split; [reflexivity|]);
        do 2 eexists; (split; [reflexivity|]); find_under_mutex.
Qed.

Lemma value_Inc_same (c : Counter) (sid mid : string) (m : Metrics) :
  value (Inc c sid mid m) c sid mid = S (value m c sid mid).
Proof. unfold value at 1, Inc. rewrite lookup_insert_eq. reflexivity. Qed.

Lemma value_Inc_other (c c' : Counter) (sid mid sid' mid' : string) (m : Metrics) :
  (c, (sid, mid)) <> (c', (sid', mid')) ->
  value (Inc c sid mid m) c' sid' mid' = value m c' sid' mid'.
Proof. intros H. unfold value at 1, Inc. rewrite lookup_insert_ne by exact H. reflexivity. Qed.

(** What [Send] does get right: once the message has gone to the stream,
    a [nil] result is counted once as delivered and an error once as
    failed, under the labels of the message; the RPC stream is left
    alone. *)
Lemma Send_counts_stream_result (msg : SinkMessage.t) (w : World) :
  (forall e, restart_answer net w <> Some (Some e)) ->
  exists res w',
    Send net msg w = Done res w'
    /\ rpcStream w' = rpcStream w
    /\ metrics w' =
       Inc (match res with
            | None => SinkMsgDeliverySucceeded
            | Some _ => SinkMsgDeliveryFailed
            end)
           (SinkMessage.SystemId msg) (SinkMessage.ModuleId msg) (metrics w).
Proof.
  unfold restart_answer. intros Hok.
  destruct (sinkStream w) as [s|] eqn:Hs.
  - destruct (connectivity.is_Ready (conn_GetState net (tick w))) eqn:Hready.
    + destruct (stream_Send net (S (tick w))) as [e|] eqn:Hsend; go_run;
        do 2 eexists; repeat split; reflexivity.
    + destruct (onms_SinkStreaming net (S (tick w))) as [e|] eqn:Hopen;
        [destruct (Hok e); reflexivity|].
      destruct (stream_Send net (S (S (tick w)))) as [e|] eqn:Hsend; go_run;
        do 2 eexists; repeat split; reflexivity.
  - destruct (onms_SinkStreaming net (tick w)) as [e|] eqn:Hopen;
      [destruct (Hok e); reflexivity|].
    destruct (stream_Send net (S (tick w))) as [e|] eqn:Hsend; go_run;
      do 2 eexists; repeat split; reflexivity.
Qed.

(** C3, where the code departs from it.  When the Sink stream is absent or
    the connection is not Ready and the re-initialization fails, [Send]
    returns a non-nil error and leaves every counter as it was: the failure
    is not counted in [SinkMsgDeliveryFailed]. *)
Theorem Send_reinit_failure_is_not_counted (msg : SinkMessage.t) (w : World) (e : error) :
  restart_answer net w = Some (Some e) ->
  exists err w',
    Send net msg w = Done (Some err) w'
    /\ metrics w' = metrics w
    /\ value (metrics w') SinkMsgDeliveryFailed
         (SinkMessage.SystemId msg) (SinkMessage.ModuleId msg)
       = value (metrics w) SinkMsgDeliveryFailed
           (SinkMessage.SystemId msg) (SinkMessage.ModuleId msg).
Proof.
  unfold restart_answer. intros H.
  destruct (sinkStream w) as [s|] eqn:Hs.
  - destruct (connectivity.is_Ready (conn_GetState net (tick w))) eqn:Hready;
      [discriminate|].
    injection H as Hopen. go_run. do 2 eexists. repeat split; reflexivity.
  - injection H as Hopen. go_run. do 2 eexists. repeat split; reflexivity.
Qed.

End SendTheorems.


Section SendExamples.
Import broker trace example.

Lemma Send_reinit_failure_is_not_counted_witness :
  exists err w',
    Send net_down trap (started ∅) = Done (Some err) w'
    /\ metrics w' = ∅
    /\ value (metrics w') SinkMsgDeliveryFailed "go-minion1" "Trap" = 0%nat.
Proof.
  exact (Send_reinit_failure_is_not_counted net_down trap (started ∅)
           (status_Error codes.Unavailable "connection refused") eq_refl).
Defined.

End SendExamples.

Section RpcTheorems.
Import broker trace.

Variable net : Net.

(** [sendResponse] never panics.  It sends the response, between taking
    and releasing [rpcMutex], exactly when the RPC stream is there and the
    connection is Ready; it counts the outcome in [RPCResSentSucceeded] or
    [RPCResSentFailed] and touches nothing else. *)
Lemma sendResponse_spec (response : RpcResponseProto.t) (w : World) :
  exists err w' new,
    sendResponse net response w = Done err w'
    /\ events w' = events w ++ new
    /\ goroutines w' = goroutines w
    /\ rpcStream w' = rpcStream w
    /\ metrics w' =
       Inc (match err with None => RPCResSentSucceeded | Some _ => RPCResSentFailed end)
           (RpcResponseProto.SystemId response) (RpcResponseProto.ModuleId response)
           (metrics w)
    /\ match rpcStream w with
       | Some s =>
           if connectivity.is_Ready (conn_GetState net (tick w))
           then new = [EvLock rpcMutex;
                       EvRpcSend s response (stream_Send net (S (tick w)));
                       EvUnlock rpcMutex]
           else new = [] /\ err <> None
       | None => new = [] /\ err <> None
       end.
Proof.
  destruct (rpcStream w) as [s|] eqn:Hs.
  - destruct (connectivity.is_Ready (conn_GetState net (tick w))) eqn:Hready.
    + destruct (stream_Send net (S (tick w))) as [e|] eqn:Hsend; go_run;
        rewrite <- ?app_assoc; do 3 eexists; repeat split; reflexivity.
    + go_run. exists (Some (fmt_Errorf
        ("cannot connect to the server, ignoring RPC request for module "
         +:+ RpcResponseProto.ModuleId response +:+ " with ID "
         +:+ RpcResponseProto.RpcId response))).
      eexists. exists []. rewrite app_nil_r. repeat split; try reflexivity. discriminate.
  - go_run. exists (Some (fmt_Errorf
        ("cannot connect to the server, ignoring RPC request for module "
         +:+ RpcResponseProto.ModuleId response +:+ " with ID "
         +:+ RpcResponseProto.RpcId response))).
    eexists. exists []. rewrite app_nil_r. repeat split; try reflexivity. discriminate.
Qed.

Lemma rpcWorker_response module request response (w : World) :
  Execute module request = Some response ->
  exists err w',
    sendResponse net response (executed request w) = Done err w'
    /\ rpcWorker net module request w
       = Done tt (set_events (events w' ++ span_end err) w').
Proof.
  intros Hexec. unfold rpcWorker, executed. rewrite Hexec.
  destruct (rpcStream w) as [s|] eqn:Hs.
  - destruct (connectivity.is_Ready (conn_GetState net (tick w))) eqn:Hready.
    + destruct (stream_Send net (S (tick w))) as [e|] eqn:Hsend; go_run;
        do 2 eexists; (split; [reflexivity|]); cbn; rewrite <- ?app_assoc; reflexivity.
    + go_run. do 2 eexists; (split; [reflexivity|]); cbn; rewrite <- ?app_assoc;
        reflexivity.
  - go_run. do 2 eexists; (split; [reflexivity|]); cbn; rewrite <- ?app_assoc;
      reflexivity.
Qed.

Lemma rpcWorker_empty module request (w : World) :
  Execute module request = None ->
  exists e,
    rpcWorker net module request w
    = Done tt
        (set_metrics
           (Inc RPCReqProcessedFailed
              (RpcRequestProto.SystemId request) (RpcRequestProto.ModuleId request)
              (metrics w))
           (set_events
              (events w ++ [EvSpanStart "RPC";
                            EvExecute (RpcRequestProto.ModuleId request) request]
                        ++ span_end (Some e)) w)).
Proof.
  intros Hexec.
  exists (fmt_Errorf
    ("module " +:+ RpcRequestProto.ModuleId request
     +:+ " returned an empty response for request "
     +:+ RpcRequestProto.RpcId request +:+ ", ignoring")).
  unfold rpcWorker. rewrite Hexec. go_run.
  rewrite <- ?app_assoc. reflexivity.
Qed.

(** C4.  [processRequest] looks the module up by the [ModuleId] of the
    request.  Without a registered module it logs the request and the
    error and does nothing else: no goroutine is started, so no response is
    ever sent.  With a module it starts one worker.  When [Execute] returns
    [nil], the worker sends nothing and increments [RPCReqProcessedFailed];
    when [Execute] returns a response, the worker increments
    [RPCReqProcessedSucceeded] and calls [sendResponse] on that response. *)
Theorem processRequest_dispatches_by_ModuleId (request : RpcRequestProto.t) (w : World) :
  let sid := RpcRequestProto.SystemId request in
  let mid := RpcRequestProto.ModuleId request in
  let received :=
    set_events
      (events w ++
       [EvLog Debug ("Received RPC request with ID " +:+ RpcRequestProto.RpcId request
                     +:+ " for module " +:+ mid
                     +:+ " at location " +:+ RpcRequestProto.Location request)]) w in
  match rpcModules w !! mid with
  | None =>
      processRequest (Some request) w
      = Done tt
          (set_events
             (events received ++
              [EvLog Err ("Cannot find implementation for module " +:+ mid
                          +:+ ", ignoring request with ID "
                          +:+ RpcRequestProto.RpcId request)]) received)
  | Some module =>
      processRequest (Some request) w
      = Done tt (set_goroutines (goroutines w ++ [RpcWorker module request]) received)
      /\ forall w1 : World,
           match Execute module request with
           | None =>
               exists w2 new,
                 rpcWorker net module request w1 = Done tt w2
                 /\ events w2 = events w1 ++ new
                 /\ (forall ev, ev ∈ new -> is_RpcSend ev = false)
                 /\ value (metrics w2) RPCReqProcessedFailed sid mid
                    = S (value (metrics w1) RPCReqProcessedFailed sid mid)
                 /\ value (metrics w2) RPCReqProcessedSucceeded sid mid
                    = value (metrics w1) RPCReqProcessedSucceeded sid mid
           | Some response =>
               exists err w2 w3,
                 sendResponse net response (executed request w1) = Done err w2
                 /\ rpcWorker net module request w1 = Done tt w3
                 /\ w3 = set_events (events w2 ++ span_end err) w2
                 /\ value (metrics w3) RPCReqProcessedSucceeded sid mid
                    = S (value (metrics w1) RPCReqProcessedSucceeded sid mid)
                 /\ value (metrics w3) RPCReqProcessedFailed sid mid
                    = value (metrics w1) RPCReqProcessedFailed sid mid
           end
  end.
Proof.
  intros sid mid received.
  destruct (rpcModules w !! mid) as [module|] eqn:Hfound.
  - split.
    + subst received mid. go_run. reflexivity.
    + intros w1. destruct (Execute module request) as [response|] eqn:Hexec.
      * destruct (rpcWorker_response module request response w1 Hexec)
          as (err & w2 & Hsend & Hworker).
        destruct (sendResponse_spec response (executed request w1))
          as (err' & w2' & new & Hsend' & _ & _ & _ & Hmetrics & _).
        rewrite Hsend in Hsend'. injection Hsend' as <- <-.
        exists err, w2, (set_events (events w2 ++ span_end err) w2).
        split; [exact Hsend|]. split; [exact Hworker|]. split; [reflexivity|].
        change (metrics (set_events (events w2 ++ span_end err) w2)) with (metrics w2).
        rewrite Hmetrics. unfold executed. cbn [metrics set_metrics].
        split.
        -- rewrite value_Inc_other by (destruct err; discriminate).
           apply value_Inc_same.
        -- rewrite value_Inc_other by (destruct err; discriminate).
           apply value_Inc_other. discriminate.
      * destruct (rpcWorker_empty module request w1 Hexec) as (e & Hworker).
        do 2 eexists. split; [exact Hworker|]. split; [reflexivity|].
        split; [|split].
        -- intros ev Hev. cbn in Hev.
           repeat (apply elem_of_cons in Hev as [-> | Hev]; [reflexivity|]).
           inversion Hev.
        -- apply value_Inc_same.
        -- apply value_Inc_other. discriminate.
  - subst received mid. go_run. rewrite <- ?app_assoc. reflexivity.
Qed.

(** C1, as the code has it.  [processRequest] does not look at the
    [ExpirationTime] of a request.  A request whose deadline has passed
    when it is received is dispatched like any other: with a module
    registered for its [ModuleId] a worker is started, and nothing is
    counted; the worker invokes [Execute]; a response that [Execute]
    returns is sent on the RPC stream when that is there and the connection
    is Ready, and when the send succeeds no failure counter moves. *)
Theorem processRequest_ignores_Expiration
    (request : RpcRequestProto.t) (w : World) (module : RPCModule) :
  RpcRequestProto.ExpirationTime request < time_Now net (tick w) ->
  rpcModules w !! RpcRequestProto.ModuleId request = Some module ->
  (exists w',
     processRequest (Some request) w = Done tt w'
     /\ goroutines w' = goroutines w ++ [RpcWorker module request]
     /\ metrics w' = metrics w)
  /\ forall w1 : World,
       exists w2 new,
         rpcWorker net module request w1 = Done tt w2
         /\ events w2 = events w1 ++ new
         /\ EvExecute (RpcRequestProto.ModuleId request) request ∈ new
         /\ forall response s,
              Execute module request = Some response ->
              rpcStream w1 = Some s ->
              connectivity.is_Ready (conn_GetState net (tick w1)) = true ->
              EvRpcSend s response (stream_Send net (S (tick w1))) ∈ new
              /\ (stream_Send net (S (tick w1)) = None ->
                  forall (c : Counter) (sid mid : string),
                    is_failure c = true ->
                    value (metrics w2) c sid mid = value (metrics w1) c sid mid).
Proof.
  intros _ Hfound. split.
  - go_run. eexists. repeat split; reflexivity.
  - intros w1. destruct (Execute module request) as [response|] eqn:Hexec.
    + destruct (rpcStream w1) as [s|] eqn:Hs.
      * destruct (connectivity.is_Ready (conn_GetState net (tick w1))) eqn:Hready.
        -- destruct (stream_Send net (S (tick w1))) as [e|] eqn:Hsend;
             unfold rpcWorker; rewrite Hexec; go_run; rewrite <- ?app_assoc;
             do 2 eexists; (split; [reflexivity|]); (split; [reflexivity|]);
             (split; [cbn; set_solver|]);
             intros response' s' [= <-] [= <-] _; (split; [cbn; set_solver|]).
           ++ discriminate.
           ++ intros _ c sid mid Hc.
              change (value (Inc RPCResSentSucceeded (RpcResponseProto.SystemId response)
                               (RpcResponseProto.ModuleId response)
                               (Inc RPCReqProcessedSucceeded
                                  (RpcRequestProto.SystemId request)
                                  (RpcRequestProto.ModuleId request) (metrics w1)))
                            c sid mid = value (metrics w1) c sid mid).
              rewrite !value_Inc_other by (destruct c; discriminate). reflexivity.
        -- unfold rpcWorker; rewrite Hexec; go_run; rewrite <- ?app_assoc;
             do 2 eexists; (split; [reflexivity|]); (split; [reflexivity|]);
             (split; [cbn; set_solver|]).
           intros response' s' _ _ [=].
      * unfold rpcWorker; rewrite Hexec; go_run; rewrite <- ?app_assoc;
          do 2 eexists; (split; [reflexivity|]); (split; [reflexivity|]);
          (split; [cbn; set_solver|]).
        intros response' s' _ [=].
    + destruct (rpcWorker_empty module request w1 Hexec) as (e & Hworker).
      do 2 eexists. split; [exact Hworker|]. split; [reflexivity|].
      split; [cbn; set_solver|]. intros response s [=].
Qed.

(** C10, where the code departs from it.  In the receive loop, when
    [Recv] fails with an error other than [io.EOF] the request it returned
    with the error is [nil]; reading [request.SystemId] for the
    [RPCReqReceivedFailed] counter is a nil dereference: the goroutine
    panics and the counter is not incremented. *)
Theorem rpcHandlerLoop_panics_on_Recv_error
    (fuel : nat) (w : World) (s : Stream) (e : error) :
  rpcStream w = Some s ->
  connectivity.is_Ready (conn_GetState net (tick w)) = true ->
  stream_Recv net (S (tick w)) = (None, Some e) ->
  is_EOF e = false ->
  exists w',
    rpcHandlerLoop net (S fuel) w = Panic nil_dereference w'
    /\ metrics w' = metrics w.
Proof.
  intros Hs Hready Hrecv Heof. cbn [rpcHandlerLoop].
  destruct (codes.is_Unavailable (status_Code e)) eqn:Hcode; go_run;
    eexists; split; reflexivity.
Qed.

End RpcTheorems.

Section RpcExamples.
Import broker trace example.

Lemma processRequest_ignores_Expiration_witness :
  (exists w',
     processRequest (Some expired_request) (started {[ "Echo" := Echo ]}) = Done tt w'
     /\ goroutines w' = [RpcWorker Echo expired_request]
     /\ metrics w' = ∅)
  /\ exists w2 new,
       rpcWorker (net_up expired_request) Echo expired_request
         (started {[ "Echo" := Echo ]}) = Done tt w2
       /\ events w2 = new
       /\ EvExecute "Echo" expired_request ∈ new
       /\ EvRpcSend 1%nat expired_response None ∈ new.
Proof.
  destruct (processRequest_ignores_Expiration (net_up expired_request)
              expired_request (started {[ "Echo" := Echo ]}) Echo)
    as [Hspawn Hworker].
  - reflexivity.
  - reflexivity.
  - split; [exact Hspawn|].
    destruct (Hworker (started {[ "Echo" := Echo ]}))
      as (w2 & new & Hrun & Hev & Hexec & Hsend).
    exists w2, new. split; [exact Hrun|]. split; [exact Hev|]. split; [exact Hexec|].
    apply (Hsend expired_response 1%nat); reflexivity.
Defined.

(** C1 as stated fails.  A request whose deadline was a second ago arrives
    on the RPC stream of a started client: [Execute] of its module is
    invoked, the response is sent on the stream, and no failure counter
    moves. *)
Lemma expired_request_is_executed_and_answered :
  let net := net_up expired_request in
  let w := world_of (execute net [CallInitRPCStream; Resume 0 2; Resume 1 0]
                       (started {[ "Echo" := Echo ]})) in
  RpcRequestProto.ExpirationTime expired_request < time_Now net 3
  /\ EvRpcRecv 2%nat (Some expired_request) None ∈ events w
  /\ EvExecute "Echo" expired_request ∈ events w
  /\ EvRpcSend 2%nat expired_response None ∈ events w
  /\ forall (c : Counter) (sid mid : string),
       is_failure c = true -> value (metrics w) c sid mid = 0%nat.
Proof.
  intros net w.
  assert (Hev : events w =
    [EvLock rpcMutex; EvCloseSend 1%nat; EvRpcStreaming (inr 2%nat); EvUnlock rpcMutex;
     EvLog Info "Sending Minion Headers from SystemId go-minion1 to gRPC server";
     EvLock rpcMutex;
     EvRpcSend 2%nat (GetHeaderResponse spec.disabled_nxos_config) None;
     EvUnlock rpcMutex;
     EvRpcRecv 2%nat (Some expired_request) None;
     EvLog Debug "Received RPC request with ID r1 for module Echo at location Test";
     EvRpcRecv 2%nat None (Some io_EOF);
     EvLog Warn "Terminating RPC API handler";
     EvSpanStart "RPC"; EvExecute "Echo" expired_request;
     EvLock rpcMutex; EvRpcSend 2%nat expired_response None; EvUnlock rpcMutex;
     EvSpanFinish]) by (vm_compute; reflexivity).
  assert (Hm : metrics w =
    Inc RPCResSentSucceeded "go-minion1" "Echo"
      (Inc RPCReqProcessedSucceeded "go-minion1" "Echo"
         (Inc RPCReqReceivedSucceeded "go-minion1" "Echo" ∅)))
    by (subst w net; lazy -[Inc]; reflexivity).
  split; [reflexivity|]. rewrite Hev.
  split; [apply (list_elem_of_lookup_2 _ 8%nat); reflexivity|].
  split; [apply (list_elem_of_lookup_2 _ 13%nat); reflexivity|].
  split; [apply (list_elem_of_lookup_2 _ 15%nat); reflexivity|].
  intros c sid mid Hc. rewrite Hm.
  rewrite !value_Inc_other by (destruct c; discriminate). reflexivity.
Qed.

(** Scenario 4 of the specification: the request with ten seconds to go
    is answered with the payload reversed. *)
Example rpc_request_dispatch :
  let request :=
    RpcRequestProto.mk "r1" hello "go-minion1" "Test" "Echo" 20000 in
  let w := world_of (execute (net_up request)
                       [CallInitRPCStream; Resume 0 2; Resume 1 0]
                       (started {[ "Echo" := Echo ]})) in
  EvRpcSend 2%nat expired_response None ∈ events w
  /\ value (metrics w) RPCReqProcessedSucceeded "go-minion1" "Echo" = 1%nat
  /\ value (metrics w) RPCResSentSucceeded "go-minion1" "Echo" = 1%nat.
Proof.
  intros request w. split; [|split; vm_compute; reflexivity].
  assert (Hev : events w !! 15%nat = Some (EvRpcSend 2%nat expired_response None))
    by (vm_compute; reflexivity).
  eapply list_elem_of_lookup_2. exact Hev.
Qed.

Lemma rpcHandlerLoop_panics_on_Recv_error_witness :
  exists w',
    rpcHandlerLoop net_broken_stream 1 (started ∅) = Panic nil_dereference w'
    /\ metrics w' = ∅.
Proof.
  apply (rpcHandlerLoop_panics_on_Recv_error net_broken_stream 0 (started ∅) 1%nat
           (status_Error codes.Internal "stream terminated by RST_STREAM"));
    reflexivity.
Defined.

End RpcExamples.

(* ===================================================================== *)
(** * The Minion header and the requests of an RPC stream                 *)
(* ===================================================================== *)

Section HeaderFirst.
Import broker trace.
Local Open Scope go_scope.

Variable net : Net.















End HeaderFirst.

Section HeaderFirstHandler.
Import broker trace.
Local Open Scope go_scope.

Variable net : Net.









End HeaderFirstHandler.

Section HeaderFirstExamples.
Import broker trace example.


(** The run of a handler alone: the stream is opened, the header goes out,
    and only then is the request received. *)
Example header_then_request :
  let w' := world_of (execute (net_up expired_request)
                        [CallInitRPCStream; Resume 0 2; Resume 1 0]
                        (fresh {[ "Echo" := Echo ]})) in
  events w' !! 1%nat = Some (EvRpcStreaming (inr 0%nat))
  /\ events w' !! 5%nat
     = Some (EvRpcSend 0%nat (GetHeaderResponse spec.disabled_nxos_config) None)
  /\ events w' !! 7%nat = Some (EvRpcRecv 0%nat (Some expired_request) None).
Proof. repeat split; vm_compute; reflexivity. Qed.


(** In the same way the response of a worker can be the first message on
    the new stream: the worker of the request received on stream 0 runs
    after the supervisor has opened stream 1 and before the new handler. *)
Example response_sent_before_header :
  let w' := world_of (execute (net_chatty expired_request)
                        [CallInitRPCStream; Resume 0 1; Resume 0 1; Resume 0 0]
                        (fresh {[ "Echo" := Echo ]})) in
  List.filter is_RpcSend (events w')
  = [EvRpcSend 0%nat (GetHeaderResponse spec.disabled_nxos_config) None;
     EvRpcSend 1%nat expired_response None]
  /\ goroutines w' = [RpcHandlerLoop; RpcHandler; RpcSupervisor].
Proof. split; vm_compute; reflexivity. Qed.

End HeaderFirstExamples.


(* ===================================================================== *)
(** * Further properties of the configuration                             *)
(* ===================================================================== *)

Section MoreConfig.
Import api.

Lemma find_listener_first p ls :
  match find_listener p ls with
  | Some l =>
      p l = true
      /\ exists pre post, ls = pre ++ l :: post /\ forall x, x ∈ pre -> p x = false
  | None => forall x, x ∈ ls -> p x = false
  end.
Proof.
  induction ls as [|y ls IH]; cbn.
  - intros x Hx. inversion Hx.
  - destruct (p y) eqn:Hy.
    + split; [exact Hy|]. exists [], ls. split; [reflexivity|].
      intros x Hx. inversion Hx.
    + destruct (find_listener p ls) as [l|].
      * destruct IH as (Hl & pre & post & -> & Hpre). split; [exact Hl|].
        exists (y :: pre), post. split; [reflexivity|].
        intros x Hx. apply elem_of_cons in Hx as [-> | Hx]; [exact Hy | exact (Hpre x Hx)].
      * intros x Hx. apply elem_of_cons in Hx as [-> | Hx]; [exact Hy | exact (IH x Hx)].
Qed.

(** X1.  [GetListener] returns the first listener of the given name, also
    when several listeners share it, and [nil] exactly when no listener has
    that name. *)
Theorem GetListener_first_of_name (cfg : MinionConfig) (name : string) :
  match GetListener cfg name with
  | Some l =>
      Name l = name
      /\ exists pre post,
           Listeners cfg = pre ++ l :: post
           /\ forall x, x ∈ pre -> Name x <> name
  | None => forall x, x ∈ Listeners cfg -> Name x <> name
  end.
Proof.
  unfold GetListener.
  pose proof (find_listener_first
                (fun listener => String.eqb (Name listener) name) (Listeners cfg)) as H.
  destruct (find_listener _ (Listeners cfg)) as [l|].
  - destruct H as (Hl & pre & post & Heq & Hpre). split.
    + apply String.eqb_eq. exact Hl.
    + exists pre, post. split; [exact Heq|].
      intros x Hx. apply String.eqb_neq. exact (Hpre x Hx).
  - intros x Hx. apply String.eqb_neq. exact (H x Hx).
Qed.

End MoreConfig.

(* ===================================================================== *)
(** * Further properties of the Sink side of the client                   *)
(* ===================================================================== *)

Section MoreSend.
Import broker trace more.

Variable net : Net.

(** X2.  [initSinkStream] never panics.  Between taking and releasing
    [sinkMutex] it half-closes the Sink stream it replaces, if there is
    one, and asks for a new stream once.  On success the client holds the
    new stream; on failure it holds none and the error wraps the cause.  The
    RPC stream, the counters and the goroutines are left alone. *)
Theorem initSinkStream_replaces_stream (w : World) :
  exists res w',
    initSinkStream net w = Done res w'
    /\ rpcStream w' = rpcStream w
    /\ metrics w' = metrics w
    /\ goroutines w' = goroutines w
    /\ match onms_SinkStreaming net (tick w) with
       | Some e =>
           res = Some (fmt_Errorf ("cannot initialize Sink API Stream: " +:+ Error e))
           /\ sinkStream w' = None
           /\ events w' = events w ++ [EvLock sinkMutex] ++ close_old (sinkStream w)
                                   ++ [EvSinkStreaming (inl e); EvUnlock sinkMutex]
       | None =>
           res = None
           /\ sinkStream w' = Some (opened w)
           /\ opened w' = S (opened w)
           /\ events w' = events w ++ [EvLock sinkMutex] ++ close_old (sinkStream w)
                                   ++ [EvSinkStreaming (inr (opened w)); EvUnlock sinkMutex]
       end.
Proof.
  destruct (sinkStream w) as [old|] eqn:Hold;
    destruct (onms_SinkStreaming net (tick w)) as [e|] eqn:Hopen; go_run;
    rewrite <- ?app_assoc; do 2 eexists; repeat split; reflexivity.
Qed.

(** X3.  When the message reaches the stream, [Send] returns [nil] if the
    stream accepted it, an error saying "server unreachable" if the stream
    answered [io.EOF], and the error of the stream itself otherwise. *)
Theorem Send_reports_EOF_as_unreachable (msg : SinkMessage.t) (w : World) :
  (forall e, restart_answer net w <> Some (Some e)) ->
  exists w',
    Send net msg w = Done (Send_result (stream_Send net (send_tick net w))) w'.
Proof.
  unfold restart_answer, send_tick, Send_result. intros Hok.
  destruct (sinkStream w) as [s|] eqn:Hs.
  - destruct (connectivity.is_Ready (conn_GetState net (tick w))) eqn:Hready.
    + destruct (stream_Send net (S (tick w))) as [[]|] eqn:Hsend; go_run;
        eexists; reflexivity.
    + destruct (onms_SinkStreaming net (S (tick w))) as [e|] eqn:Hopen;
        [destruct (Hok e); reflexivity|].
      destruct (stream_Send net (S (S (tick w)))) as [[]|] eqn:Hsend; go_run;
        eexists; reflexivity.
  - destruct (onms_SinkStreaming net (tick w)) as [e|] eqn:Hopen;
      [destruct (Hok e); reflexivity|].
    destruct (stream_Send net (S (tick w))) as [[]|] eqn:Hsend; go_run;
      eexists; reflexivity.
Qed.

(** X4.  A message that reaches the stream is counted exactly once: in
    [SinkMsgDeliverySucceeded] when [Send] returns [nil], in
    [SinkMsgDeliveryFailed] otherwise, under the [SystemId] and [ModuleId] of
    the message; no other counter and no other label moves. *)
Theorem Send_counts_message_once (msg : SinkMessage.t) (w : World) :
  (forall e, restart_answer net w <> Some (Some e)) ->
  exists res w',
    Send net msg w = Done res w'
    /\ let counted := match res with
                      | None => SinkMsgDeliverySucceeded
                      | Some _ => SinkMsgDeliveryFailed
                      end in
       value (metrics w') counted (SinkMessage.SystemId msg) (SinkMessage.ModuleId msg)
       = S (value (metrics w) counted (SinkMessage.SystemId msg) (SinkMessage.ModuleId msg))
       /\ forall (c : Counter) (sid mid : string),
            (c, (sid, mid))
            <> (counted, (SinkMessage.SystemId msg, SinkMessage.ModuleId msg)) ->
            value (metrics w') c sid mid = value (metrics w) c sid mid.
Proof.
  intros Hok. destruct (Send_counts_stream_result net msg w Hok) as (res & w' & Hrun & _ & Hm).
  exists res, w'. split; [exact Hrun|]. cbn zeta. rewrite Hm. split.
  - apply value_Inc_same.
  - intros c sid mid Hne. apply value_Inc_other. congruence.
Qed.

(** X5.  Recovery of the Sink stream is lazy and is tried again by every
    [Send]: after a [Send] whose re-initialization failed the client holds
    no Sink stream, and the next [Send] calls [onms.SinkStreaming] once more
    without reading the state of the connection first. *)
Theorem Send_retries_after_failed_reinit (msg next : SinkMessage.t) (w : World) (e : error) :
  restart_answer net w = Some (Some e) ->
  exists err w',
    Send net msg w = Done (Some err) w'
    /\ sinkStream w' = None
    /\ restart_answer net w' = Some (onms_SinkStreaming net (tick w'))
    /\ exists res w'' new,
         Send net next w' = Done res w''
         /\ events w'' = events w' ++ new
         /\ reinit_attempts new = 1%nat.
Proof.
  unfold restart_answer. intros H.
  assert (Hnext : forall w0 : World, sinkStream w0 = None ->
            exists res w'' new,
              Send net next w0 = Done res w''
              /\ events w'' = events w0 ++ new
              /\ reinit_attempts new = 1%nat).
  { intros w0 Hnone.
    destruct (onms_SinkStreaming net (tick w0)) as [e0|] eqn:Hopen.
    - go_run. rewrite <- ?app_assoc. do 3 eexists. repeat split; reflexivity.
    - destruct (stream_Send net (S (tick w0))) as [e1|] eqn:Hsend; go_run;
        rewrite <- ?app_assoc; do 3 eexists; repeat split; reflexivity. }
  destruct (sinkStream w) as [s|] eqn:Hs.
  - destruct (connectivity.is_Ready (conn_GetState net (tick w))) eqn:Hready;
      [discriminate|].
    injection H as Hopen. go_run. do 2 eexists.
    split; [reflexivity|]. split; [reflexivity|]. split; [reflexivity|].
    apply Hnext. reflexivity.
  - injection H as Hopen. go_run. do 2 eexists.
    split; [reflexivity|]. split; [reflexivity|]. split; [reflexivity|].
    apply Hnext. reflexivity.
Qed.

End MoreSend.

Section MoreSendExamples.
Import broker trace more example.

Lemma Send_reports_EOF_as_unreachable_witness :
  exists w',
    Send net_eof trap (started ∅) = Done (Some (fmt_Errorf "server unreachable")) w'.
Proof.
  apply (Send_reports_EOF_as_unreachable net_eof trap (started ∅)).
  intros e. discriminate.
Defined.

Lemma Send_counts_message_once_witness :
  exists res w',
    Send net_eof trap (started ∅) = Done res w'
    /\ let counted := match res with
                      | None => SinkMsgDeliverySucceeded
                      | Some _ => SinkMsgDeliveryFailed
                      end in
       value (metrics w') counted "go-minion1" "Trap"
       = S (value (metrics (started ∅)) counted "go-minion1" "Trap")
       /\ forall (c : Counter) (sid mid : string),
            (c, (sid, mid)) <> (counted, ("go-minion1", "Trap")) ->
            value (metrics w') c sid mid = value (metrics (started ∅)) c sid mid.
Proof.
  apply (Send_counts_message_once net_eof trap (started ∅)).
  intros e. discriminate.
Defined.

Lemma Send_retries_after_failed_reinit_witness :
  exists err w',
    Send net_down trap (started ∅) = Done (Some err) w' /\ sinkStream w' = None.
Proof.
  destruct (Send_retries_after_failed_reinit net_down trap trap (started ∅)
              (status_Error codes.Unavailable "connection refused") eq_refl)
    as (err & w' & Hrun & Hnone & _).
  exists err, w'. split; assumption.
Defined.

End MoreSendExamples.

(* ===================================================================== *)
(** * Further properties of the RPC side of the client                    *)
(* ===================================================================== *)

Section MoreRpc.
Import broker trace more.

Variable net : Net.

(** X6.  A call of [sendResponse] that no other goroutine interrupts
    sends the response, between taking and releasing [rpcMutex], exactly
    when the RPC stream is there and the connection is Ready, and returns
    [nil] exactly when that send succeeded.  It counts the outcome once,
    in [RPCResSentSucceeded] or in [RPCResSentFailed], under the labels of
    the response.  The test of line 363 is made before [rpcMutex] is
    taken: the send of line 365 reads [cli.rpcStream] again, and panics
    when the field has become [nil] in between, as a failed
    [initRPCStream] of the supervisor leaves it. *)
Theorem sendResponse_sends_when_available (response : RpcResponseProto.t) (w : World) :
  (exists err w' new,
     sendResponse net response w = Done err w'
     /\ events w' = events w ++ new
     /\ goroutines w' = goroutines w
     /\ (if rpc_available net w
         then exists s,
                rpcStream w = Some s
                /\ new = [EvLock rpcMutex;
                          EvRpcSend s response (stream_Send net (S (tick w)));
                          EvUnlock rpcMutex]
                /\ (err = None <-> stream_Send net (S (tick w)) = None)
         else new = [] /\ err <> None)
     /\ let counted := match err with
                       | None => RPCResSentSucceeded
                       | Some _ => RPCResSentFailed
                       end in
        value (metrics w') counted
          (RpcResponseProto.SystemId response) (RpcResponseProto.ModuleId response)
        = S (value (metrics w) counted
               (RpcResponseProto.SystemId response) (RpcResponseProto.ModuleId response)))
  /\ (forall w0 : World,
        rpcStream w0 = None ->
        rpcStream_Send net response w0 = Panic nil_dereference w0)
  /\ (forall w0 : World,
        onms_RpcStreaming net (tick w0) <> None ->
        exists err w1, initRPCStream net w0 = Done (Some err) w1 /\ rpcStream w1 = None).
Proof.
  split; [|split].
  2: { intros w0 Hnone. go_run. reflexivity. }
  2: { intros w0 Hfail.
       destruct (onms_RpcStreaming net (tick w0)) as [e|] eqn:Hopen; [|congruence].
       destruct (rpcStream w0) as [s0|] eqn:Hs0; go_run;
         do 2 eexists; split; reflexivity. }
  unfold rpc_available.
  destruct (rpcStream w) as [s|] eqn:Hs.
  - destruct (connectivity.is_Ready (conn_GetState net (tick w))) eqn:Hready.
    + destruct (stream_Send net (S (tick w))) as [e|] eqn:Hsend; go_run;
        rewrite <- ?app_assoc; do 3 eexists;
        (split; [reflexivity|]); (split; [reflexivity|]); (split; [reflexivity|]);
        (split; [exists s; split; [reflexivity|]; split; [reflexivity|];
                 split; discriminate || reflexivity
                |apply value_Inc_same]).
    + go_run. do 2 eexists. exists []. rewrite app_nil_r.
      split; [reflexivity|]. split; [reflexivity|]. split; [reflexivity|].
      split; [split; [reflexivity | discriminate]|]. apply value_Inc_same.
  - go_run. do 2 eexists. exists []. rewrite app_nil_r.
    split; [reflexivity|]. split; [reflexivity|]. split; [reflexivity|].
    split; [split; [reflexivity | discriminate]|]. apply value_Inc_same.
Qed.

(** X7.  The receive loop ends, without calling [Recv], as soon as the
    client has no RPC stream or the connection is not Ready: nothing is
    received, counted or started. *)
Theorem rpcHandlerLoop_ends_when_unavailable (fuel : nat) (w : World) :
  rpc_available net w = false ->
  exists w',
    rpcHandlerLoop net (S fuel) w = Done Left w'
    /\ events w' = events w
    /\ metrics w' = metrics w
    /\ goroutines w' = goroutines w
    /\ rpcStream w' = rpcStream w.
Proof.
  unfold rpc_available. intros H. cbn [rpcHandlerLoop].
  destruct (rpcStream w) as [s|] eqn:Hs; go_run; eexists.
  all: repeat split; solve [reflexivity | assumption].
Qed.

(** X8.  The receive loop ends when [Recv] answers [io.EOF]: the end of the
    stream is not counted as a failed receive and starts nothing. *)
Theorem rpcHandlerLoop_ends_on_EOF (fuel : nat) (w : World)
    (request : option RpcRequestProto.t) :
  rpc_available net w = true ->
  stream_Recv net (S (tick w)) = (request, Some io_EOF) ->
  exists s w',
    rpcStream w = Some s
    /\ rpcHandlerLoop net (S fuel) w = Done Left w'
    /\ events w' = events w ++ [EvRpcRecv s request (Some io_EOF)]
    /\ metrics w' = metrics w
    /\ goroutines w' = goroutines w.
Proof.
  unfold rpc_available. intros Havail Hrecv. cbn [rpcHandlerLoop].
  destruct (rpcStream w) as [s|] eqn:Hs; [|discriminate].
  go_run. do 2 eexists. repeat split; reflexivity.
Qed.

(** X9.  One turn of the receive loop on a request: the request is logged,
    a worker is started if and only if a module is registered for its
    [ModuleId], the request is counted once in [RPCReqReceivedSucceeded]
    either way (a request for an unknown module is dropped but still counted
    as received), and the loop goes on. *)
Theorem rpcHandlerLoop_counts_every_request (fuel : nat) (w : World)
    (request : RpcRequestProto.t) :
  rpc_available net w = true ->
  stream_Recv net (S (tick w)) = (Some request, None) ->
  exists s w1,
    rpcStream w = Some s
    /\ rpcHandlerLoop net (S fuel) w = rpcHandlerLoop net fuel w1
    /\ metrics w1 = Inc RPCReqReceivedSucceeded (RpcRequestProto.SystemId request)
                      (RpcRequestProto.ModuleId request) (metrics w)
    /\ rpcStream w1 = rpcStream w
    /\ tick w1 = S (S (tick w))
    /\ match rpcModules w !! RpcRequestProto.ModuleId request with
       | Some module =>
           goroutines w1 = goroutines w ++ [RpcWorker module request]
           /\ exists line,
                events w1 = events w ++ [EvRpcRecv s (Some request) None; EvLog Debug line]
       | None =>
           goroutines w1 = goroutines w
           /\ exists line complaint,
                events w1 = events w ++ [EvRpcRecv s (Some request) None;
                                         EvLog Debug line; EvLog Err complaint]
       end.
Proof.
  unfold rpc_available. intros Havail Hrecv. cbn [rpcHandlerLoop].
  destruct (rpcStream w) as [s|] eqn:Hs; [|discriminate].
  destruct (rpcModules w !! RpcRequestProto.ModuleId request) as [module|] eqn:Hfound;
    go_run; rewrite <- ?app_assoc; do 2 eexists;
    (split; [reflexivity|]); (split; [reflexivity|]);
    repeat split; try reflexivity; repeat eexists.
Qed.

Lemma sleeps_app evs new : sleeps (evs ++ new) = (sleeps evs + sleeps new)%nat.
Proof. unfold sleeps. rewrite List.filter_app, length_app. reflexivity. Qed.

(** A turn of the supervisor whose attempt fails: the stream is gone, the
    supervisor has slept once, and it tries again. *)
Lemma rpcSupervisorLoop_failed_turn (fuel : nat) (w : World) (e : error) :
  onms_RpcStreaming net (tick w) = Some e ->
  exists w1,
    rpcSupervisorLoop net (S fuel) w = rpcSupervisorLoop net fuel w1
    /\ tick w1 = S (tick w)
    /\ opened w1 = opened w
    /\ goroutines w1 = goroutines w
    /\ rpcStream w1 = None
    /\ sleeps (events w1) = S (sleeps (events w)).
Proof.
  intros Hopen. cbn [rpcSupervisorLoop].
  destruct (rpcStream w) as [s|] eqn:Hs; go_run; eexists;
    (split; [reflexivity|]); repeat split; cbn -[sleeps];
    rewrite <- ?app_assoc, ?sleeps_app; cbn; try reflexivity; lia.
Qed.

(** X10.  The supervisor restarts the RPC stream until that works: when
    the first [k] attempts fail and the next one succeeds, it has slept [k]
    times, it leaves its loop with the new stream in place, and only the
    attempt that succeeded has started goroutines: one handler and one
    supervisor. *)
Theorem rpcSupervisorLoop_retries_until_success (k fuel : nat) (w : World) :
  (k < fuel)%nat ->
  (forall i, (i < k)%nat -> onms_RpcStreaming net (tick w + i) <> None) ->
  onms_RpcStreaming net (tick w + k) = None ->
  exists w',
    rpcSupervisorLoop net fuel w = Done Left w'
    /\ rpcStream w' = Some (opened w)
    /\ goroutines w' = goroutines w ++ [RpcHandler; RpcSupervisor]
    /\ sleeps (events w') = (sleeps (events w) + k)%nat
    /\ tick w' = (tick w + S k)%nat.
Proof.
  revert fuel w. induction k as [|k IH]; intros fuel w Hfuel Hfail Hok.
  - destruct fuel as [|fuel]; [lia|]. rewrite Nat.add_0_r in Hok.
    cbn [rpcSupervisorLoop].
    destruct (rpcStream w) as [s|] eqn:Hs; go_run; eexists;
      (split; [reflexivity|]); repeat split; cbn -[sleeps];
      rewrite <- ?app_assoc, ?sleeps_app; cbn; try reflexivity; lia.
  - destruct fuel as [|fuel]; [lia|].
    destruct (onms_RpcStreaming net (tick w)) as [e|] eqn:Hopen.
    + destruct (rpcSupervisorLoop_failed_turn fuel w e Hopen)
        as (w1 & Hturn & Htick & Hopened & Hgo & _ & Hsleeps).
      destruct (IH fuel w1) as (w' & Hrun & Hs' & Hg' & Hsl' & Ht').
      * lia.
      * intros i Hi. rewrite Htick.
        replace (S (tick w) + i)%nat with (tick w + S i)%nat by lia.
        apply Hfail. lia.
      * rewrite Htick. replace (S (tick w) + k)%nat with (tick w + S k)%nat by lia.
        exact Hok.
      * exists w'. rewrite Hturn. split; [exact Hrun|].
        rewrite Hs', Hg', Hsl', Ht', Hopened, Hgo, Hsleeps, Htick.
        repeat split; lia.
    + exfalso. apply (Hfail 0%nat); [lia|]. rewrite Nat.add_0_r. exact Hopen.
Qed.

(** X11.  A failed [initRPCStream] returns the error wrapped, after it has
    half-closed the stream it meant to replace; it starts no goroutine and
    leaves the client without RPC stream, so that a receive loop that is
    still running ends at its next turn. *)
Theorem initRPCStream_failure_leaves_no_stream (fuel : nat) (w : World) (e : error) :
  onms_RpcStreaming net (tick w) = Some e ->
  exists w',
    initRPCStream net w
    = Done (Some (fmt_Errorf ("cannot initialize RPC API Stream: " +:+ Error e))) w'
    /\ rpcStream w' = None
    /\ goroutines w' = goroutines w
    /\ metrics w' = metrics w
    /\ events w' = events w ++ [EvLock rpcMutex] ++ close_old (rpcStream w)
                            ++ [EvRpcStreaming (inl e); EvUnlock rpcMutex]
    /\ rpcHandlerLoop net (S fuel) w' = Done Left w'.
Proof.
  intros Hopen.
  destruct (rpcStream w) as [s|] eqn:Hs; go_run; rewrite <- ?app_assoc; eexists;
    repeat split; reflexivity.
Qed.

(** X12.  When the Minion header cannot be sent, [sendMinionHeaders] only
    logs the error: the handler goes on to its receive loop on the same
    stream. *)
Theorem rpcHandler_goes_on_after_header_failure
    (fuel : nat) (w : World) (s : Stream) (e : error) :
  rpcStream w = Some s ->
  stream_Send net (tick w) = Some e ->
  exists w1,
    sendMinionHeaders net w = Done tt w1
    /\ events w1 =
       events w ++
       [EvLog Info ("Sending Minion Headers from SystemId " +:+ api.ID (config w)
                    +:+ " to gRPC server");
        EvLock rpcMutex;
        EvRpcSend s (GetHeaderResponse (config w)) (Some e);
        EvLog Err ("Cannot send RPC headers: " +:+ Error e);
        EvUnlock rpcMutex]
    /\ rpcStream w1 = Some s
    /\ rpcHandler net fuel w =
       match rpcHandlerLoop net fuel w1 with
       | Done Left w2 =>
           Done Left (set_events (events w2 ++ [EvLog Warn "Terminating RPC API handler"]) w2)
       | Done Looping w2 => Done Looping w2
       | Panic msg w2 => Panic msg w2
       end.
Proof.
  intros Hs Hsend.
  assert (Hheaders : exists w1,
             sendMinionHeaders net w = Done tt w1
             /\ events w1 =
                events w ++
                [EvLog Info ("Sending Minion Headers from SystemId " +:+ api.ID (config w)
                             +:+ " to gRPC server");
                 EvLock rpcMutex;
                 EvRpcSend s (GetHeaderResponse (config w)) (Some e);
                 EvLog Err ("Cannot send RPC headers: " +:+ Error e);
                 EvUnlock rpcMutex]
             /\ rpcStream w1 = Some s).
  { go_run. rewrite <- ?app_assoc. eexists. repeat split; reflexivity. }
  destruct Hheaders as (w1 & Hrun & Hev & Hs1).
  exists w1. split; [exact Hrun|]. split; [exact Hev|]. split; [exact Hs1|].
  unfold rpcHandler. unfold bind at 1. rewrite Hrun. unfold bind.
  destruct (rpcHandlerLoop net fuel w1) as [[|] w2 | msg w2]; reflexivity.
Qed.

End MoreRpc.

Section MoreRpcExamples.
Import broker trace more example.

(** The race of [sendResponse] at its two ends: the supervisor fails to
    re-open the stream and leaves the field [nil]; a send that has passed
    the test of line 363 before then panics. *)
Lemma sendResponse_sends_when_available_witness :
  (exists err w1,
     initRPCStream net_down (started ∅) = Done (Some err) w1
     /\ rpcStream w1 = None)
  /\ rpcStream_Send net_down expired_response (fresh ∅)
     = Panic nil_dereference (fresh ∅).
Proof.
  pose proof (sendResponse_sends_when_available net_down expired_response (started ∅))
    as (_ & Hsend & Hinit).
  split.
  - apply Hinit. discriminate.
  - apply Hsend. reflexivity.
Defined.

Lemma rpcHandlerLoop_ends_when_unavailable_witness :
  exists w',
    rpcHandlerLoop net_down 1 (started ∅) = Done Left w'
    /\ events w' = [] /\ goroutines w' = [].
Proof.
  destruct (rpcHandlerLoop_ends_when_unavailable net_down 0 (started ∅) eq_refl)
    as (w' & Hrun & Hev & _ & Hgo & _).
  exists w'. repeat split; assumption.
Defined.

Lemma rpcHandlerLoop_ends_on_EOF_witness :
  exists s w',
    rpcStream (started ∅) = Some s
    /\ rpcHandlerLoop net_eof 1 (started ∅) = Done Left w'
    /\ events w' = [EvRpcRecv s None (Some io_EOF)].
Proof.
  destruct (rpcHandlerLoop_ends_on_EOF net_eof 0 (started ∅) None eq_refl eq_refl)
    as (s & w' & Hs & Hrun & Hev & _).
  exists s, w'. repeat split; assumption.
Defined.

Lemma rpcHandlerLoop_counts_every_request_witness :
  exists s w1,
    rpcStream (started ∅) = Some s
    /\ rpcHandlerLoop (net_up expired_request) 1 (started ∅)
       = rpcHandlerLoop (net_up expired_request) 0 w1
    /\ metrics w1 = Inc RPCReqReceivedSucceeded "go-minion1" "Echo" ∅.
Proof.
  destruct (rpcHandlerLoop_counts_every_request (net_up expired_request) 0 (started ∅)
              expired_request eq_refl eq_refl)
    as (s & w1 & Hs & Hrun & Hm & _).
  exists s, w1. repeat split; assumption.
Defined.

Lemma rpcSupervisorLoop_retries_until_success_witness :
  exists w',
    rpcSupervisorLoop net_flaky 5 (started ∅) = Done Left w'
    /\ rpcStream w' = Some 2%nat
    /\ goroutines w' = [RpcHandler; RpcSupervisor]
    /\ sleeps (events w') = 2%nat.
Proof.
  destruct (rpcSupervisorLoop_retries_until_success net_flaky 2 5 (started ∅))
    as (w' & Hrun & Hs & Hgo & Hsl & _).
  - lia.
  - intros i Hi. destruct i as [|[|i]]; [discriminate | discriminate | lia].
  - reflexivity.
  - exists w'. repeat split; assumption.
Defined.

Lemma initRPCStream_failure_leaves_no_stream_witness :
  exists w',
    initRPCStream net_down (started ∅)
    = Done (Some (fmt_Errorf
         "cannot initialize RPC API Stream: rpc error: code = Unavailable desc = connection refused"))
        w'
    /\ rpcStream w' = None
    /\ rpcHandlerLoop net_down 1 w' = Done Left w'.
Proof.
  destruct (initRPCStream_failure_leaves_no_stream net_down 0 (started ∅)
              (status_Error codes.Unavailable "connection refused") eq_refl)
    as (w' & Hrun & Hs & _ & _ & _ & Hloop).
  exists w'. repeat split; assumption.
Defined.

Lemma rpcHandler_goes_on_after_header_failure_witness :
  exists w1,
    sendMinionHeaders net_eof (started ∅) = Done tt w1
    /\ rpcStream w1 = Some 1%nat.
Proof.
  destruct (rpcHandler_goes_on_after_header_failure net_eof 1 (started ∅) 1%nat io_EOF
              eq_refl eq_refl)
    as (w1 & Hrun & _ & Hs & _).
  exists w1. split; assumption.
Defined.

End MoreRpcExamples.

(* ===================================================================== *)
(** * Further properties of the NX-OS module                              *)
(* ===================================================================== *)

Section MoreSink.
Import api api_ext dialout.

Variable Broker : Type.
Variable net_Listen : string -> option error.
Variable wrap :
  option MinionConfig -> string -> Z -> list Byte.byte -> option (list Byte.byte).

(** X14.  [Stop] after [Start]: the server is stopped if and only if
    [Start] found a listener for ["NxosGrpcParser"] with a port other than
    0, also when [Start] then failed to open the TCP listener; a module
    that stayed idle has no server to stop and [Stop] only logs. *)
Theorem Stop_after_Start (module : sink.NxosGrpcModule Broker)
    (cfg : MinionConfig) (b : Broker) :
  sink.server Broker module = false ->
  let started := snd (fst (sink.Start Broker net_Listen module cfg b)) in
  Stop started
  = Warnf "Stopping NX-OS telemetry gRPC server"
    :: match GetListenerByParser cfg "NxosGrpcParser" with
       | Some l => if Port l =? 0 then [] else [ServerStop]
       | None => []
       end.
Proof.
  intros Hidle. unfold sink.Start, Stop.
  destruct (GetListenerByParser cfg "NxosGrpcParser") as [l|]; cbn.
  - destruct (Port l =? 0); cbn.
    + rewrite Hidle. reflexivity.
    + destruct (net_Listen (":" +:+ pretty (Port l))); reflexivity.
  - rewrite Hidle. reflexivity.
Qed.

Lemma MdtDialout_loop_with_peer module addr answers :
  snd (MdtDialout_loop Broker wrap module (Some addr) answers) = Waiting
  /\ length (List.filter is_Recv (fst (MdtDialout_loop Broker wrap module (Some addr) answers)))
     = S (length answers)
  /\ omap sent_bytes (fst (MdtDialout_loop Broker wrap module (Some addr) answers))
     = omap (forwards Broker wrap module addr) answers.
Proof.
  induction answers as [|[err | args] rest (IHo & IHn & IHf)]; cbn [MdtDialout_loop].
  - repeat split.
  - cbn -[forwards]. rewrite IHn, IHf. repeat split. exact IHo.
  - destruct ((length (Data args) =? 0)%nat && negb (String.length (Errors args) =? 0)%nat)
      eqn:Hreport.
    + cbn -[forwards]. unfold forwards at 1. rewrite Hreport, IHn, IHf.
      repeat split. exact IHo.
    + cbn [fst snd]. split; [exact IHo|].
      cbn -[forwards]. unfold forwards at 1. rewrite Hreport.
      destruct (wrap (sink.config Broker module) addr (sink.port Broker module mod 2 ^ 32)
                  (Data args)) as [bytes|]; cbn -[forwards]; rewrite IHn, IHf;
        split; reflexivity.
Qed.

(** X15.  [MdtDialout] never returns.  With a peer it does not panic
    either: whatever the stream answers, errors and [io.EOF] included, it
    logs and calls [Recv] again, once per answer and once more to wait. *)
Theorem MdtDialout_never_returns (module : sink.NxosGrpcModule Broker)
    (peer : option string) (answers : list (error + MdtDialoutArgs)) :
  (forall err, snd (MdtDialout Broker wrap module peer answers) <> Returned err)
  /\ forall addr,
       peer = Some addr ->
       snd (MdtDialout Broker wrap module peer answers) = Waiting
       /\ length (List.filter is_Recv (fst (MdtDialout Broker wrap module peer answers)))
          = S (length answers).
Proof.
  split.
  - intros err. unfold MdtDialout. cbn [snd].
    induction answers as [|[e | args] rest IH]; cbn [MdtDialout_loop].
    + discriminate.
    + exact IH.
    + destruct peer as [addr|]; [|discriminate].
      destruct ((length (Data args) =? 0)%nat && negb (String.length (Errors args) =? 0)%nat);
        exact IH.
  - intros addr ->. unfold MdtDialout.
    destruct (MdtDialout_loop_with_peer module addr answers) as (Ho & Hn & _).
    cbn [fst snd]. split; [exact Ho|]. cbn. exact Hn.
Qed.

(** X16.  With a peer, [MdtDialout] forwards, in the order received,
    exactly the messages that are not error reports (no data and a
    non-empty [Errors]) and that [wrapMessageToTelemetry] turns into bytes;
    failed receives forward nothing. *)
Theorem MdtDialout_forwards_wrapped_messages (module : sink.NxosGrpcModule Broker)
    (addr : string) (answers : list (error + MdtDialoutArgs)) :
  omap sent_bytes (fst (MdtDialout Broker wrap module (Some addr) answers))
  = omap (forwards Broker wrap module addr) answers.
Proof.
  unfold MdtDialout. cbn [fst].
  destruct (MdtDialout_loop_with_peer module addr answers) as (_ & _ & Hf).
  cbn. exact Hf.
Qed.

(** X17.  Without a peer in the context of the stream, failed receives
    are logged as usual but the first message that arrives makes the
    goroutine panic, on [peer.Addr]; nothing is ever forwarded. *)
Theorem MdtDialout_without_peer_panics (module : sink.NxosGrpcModule Broker)
    (answers : list (error + MdtDialoutArgs)) (args : MdtDialoutArgs) :
  inr args ∈ answers ->
  snd (MdtDialout Broker wrap module None answers) = Panicked broker.nil_dereference
  /\ omap sent_bytes (fst (MdtDialout Broker wrap module None answers)) = [].
Proof.
  unfold MdtDialout. cbn [fst snd app]. intros Hin.
  induction answers as [|[e | a] rest IH]; cbn [MdtDialout_loop].
  - inversion Hin.
  - apply elem_of_cons in Hin as [Heq | Hin]; [discriminate|].
    destruct (IH Hin) as (Ho & Hf). cbn. split; assumption.
  - split; reflexivity.
Qed.

End MoreSink.

Section MoreSinkExamples.
Import api api_ext dialout.

Lemma Stop_after_Start_witness :
  Stop (snd (fst (sink.Start unit (fun _ => Some (fmt_Errorf "address already in use"))
                    (sink.nxosGrpcModule unit)
                    (parsed_config (ParseListeners spec.test_config spec.test_listeners)) tt)))
  = [Warnf "Stopping NX-OS telemetry gRPC server"; ServerStop]
  /\ Stop (snd (fst (sink.Start unit (fun _ => None) (sink.nxosGrpcModule unit)
                       spec.test_config tt)))
     = [Warnf "Stopping NX-OS telemetry gRPC server"].
Proof.
  split.
  - rewrite (Stop_after_Start unit (fun _ => Some (fmt_Errorf "address already in use"))
               (sink.nxosGrpcModule unit)
               (parsed_config (ParseListeners spec.test_config spec.test_listeners)) tt eq_refl).
    reflexivity.
  - rewrite (Stop_after_Start unit (fun _ => None) (sink.nxosGrpcModule unit)
               spec.test_config tt eq_refl).
    reflexivity.
Defined.

Lemma MdtDialout_never_returns_witness :
  snd (MdtDialout unit (fun _ _ _ data => Some data) (sink.nxosGrpcModule unit)
         (Some "192.0.2.1:57500") [inl io_EOF; inl io_EOF])
  = Waiting
  /\ length (List.filter is_Recv
               (fst (MdtDialout unit (fun _ _ _ data => Some data) (sink.nxosGrpcModule unit)
                       (Some "192.0.2.1:57500") [inl io_EOF; inl io_EOF])))
     = 3%nat.
Proof.
  apply (proj2 (MdtDialout_never_returns unit (fun _ _ _ data => Some data)
                  (sink.nxosGrpcModule unit) (Some "192.0.2.1:57500")
                  [inl io_EOF; inl io_EOF]) "192.0.2.1:57500" eq_refl).
Defined.

Lemma MdtDialout_without_peer_panics_witness :
  snd (MdtDialout unit (fun _ _ _ data => Some data) (sink.nxosGrpcModule unit) None
         [inl io_EOF; inr (mkArgs 1 example.hello "")])
  = Panicked broker.nil_dereference.
Proof.
  apply (MdtDialout_without_peer_panics unit (fun _ _ _ data => Some data)
           (sink.nxosGrpcModule unit) [inl io_EOF; inr (mkArgs 1 example.hello "")]
           (mkArgs 1 example.hello "")).
  apply list_elem_of_further, list_elem_of_here.
Defined.

End MoreSinkExamples.

(* ===================================================================== *)
(** * Properties of [initConfig] and of the transport credentials         *)
(* ===================================================================== *)

Section MoreCmd.
Import viper.

(** X18.  Where [initConfig] looks for the configuration file.  With a
    [--config] file no search path is added.  Without one, the current
    directory is always searched, and the home directory is added to the
    search path only when [homedir.Dir()] failed: a home directory that was
    found is not searched. *)
Theorem initConfig_search_paths (cfgFile home : string) (home_err read_err : option error)
    (used path : string) :
  AddConfigPath path ∈ initConfig cfgFile (home, home_err) read_err used
  <-> cfgFile = "" /\ (path = "." \/ (home_err <> None /\ path = home)).
Proof.
  unfold initConfig. cbn [fst snd].
  destruct (String.eqb_spec cfgFile "") as [-> | Hfile]; cbn [negb];
    destruct home_err as [e|]; destruct read_err as [r|]; cbn [app];
    rewrite ?elem_of_cons, ?elem_of_nil; intuition congruence.
Qed.

Lemma initConfig_search_paths_witness :
  AddConfigPath "/home/minion"
    ∈ initConfig "" ("/home/minion", None) None "./.gominion.yaml"
  <-> "" = "" /\ ("/home/minion" = "." \/ (@None error <> None /\ "/home/minion" = "/home/minion")).
Proof. apply initConfig_search_paths. Defined.

(** X19.  A configuration file that cannot be read is passed over in
    silence: [initConfig] prints the file in use exactly when
    [ReadInConfig] succeeded, and in every case its last call is
    [Unmarshal]. *)
Theorem initConfig_ignores_read_failure (cfgFile : string) (homedir_Dir : string * option error)
    (read_err : option error) (used : string) :
  List.last (initConfig cfgFile homedir_Dir read_err used) ReadInConfig = Unmarshal
  /\ ReadInConfig ∈ initConfig cfgFile homedir_Dir read_err used
  /\ (List.filter is_Println (initConfig cfgFile homedir_Dir read_err used) = []
      <-> read_err <> None).
Proof.
  unfold initConfig. destruct homedir_Dir as [home home_err]. cbn [fst snd].
  destruct (negb (String.eqb cfgFile "")); destruct home_err as [e|];
    destruct read_err as [r|]; cbn; repeat split;
    try discriminate; try congruence;
    try (rewrite !elem_of_cons; tauto).
Qed.

End MoreCmd.

Section MoreCredentials.
Import startup.

Variable Certificate : Type.
Variable GetBrokerProperty : string -> string.
Variable ioutil_ReadFile : string -> error + list Byte.byte.
Variable AppendCertsFromPEM : list Byte.byte -> bool.
Variable tls_LoadX509KeyPair : string -> string -> error + Certificate.

(** X20.  When [getTransportCredentials] succeeds, the TLS configuration
    has a pool of root certificates exactly when ["ca-cert-path"] is set, and
    a client certificate exactly when both ["client-cert-path"] and
    ["client-key-path"] are set; when one of the two is missing the other is
    ignored without a word and no key pair is loaded. *)
Theorem getTransportCredentials_success (cfg : tls_Config Certificate) (steps : list Step) :
  getTransportCredentials Certificate GetBrokerProperty ioutil_ReadFile
    AppendCertsFromPEM tls_LoadX509KeyPair = (inr cfg, steps) ->
  (RootCAs cfg = None <-> GetBrokerProperty "ca-cert-path" = "")
  /\ (Certificates cfg = [] <->
      GetBrokerProperty "client-cert-path" = "" \/ GetBrokerProperty "client-key-path" = "")
  /\ (List.filter is_LoadX509KeyPair steps = [] <->
      GetBrokerProperty "client-cert-path" = "" \/ GetBrokerProperty "client-key-path" = "").
Proof.
  unfold getTransportCredentials, load_RootCAs.
  destruct (String.eqb_spec (GetBrokerProperty "ca-cert-path") "") as [Hca | Hca];
    destruct (String.eqb_spec (GetBrokerProperty "client-cert-path") "") as [Hcert | Hcert];
    destruct (String.eqb_spec (GetBrokerProperty "client-key-path") "") as [Hkey | Hkey];
    cbn [negb andb];
    try destruct (ioutil_ReadFile (GetBrokerProperty "ca-cert-path")) as [e | pem];
    try destruct (AppendCertsFromPEM pem);
    try destruct (tls_LoadX509KeyPair (GetBrokerProperty "client-cert-path")
                    (GetBrokerProperty "client-key-path")) as [e' | certificate];
    intros [= <- <-]; cbn; intuition congruence.
Qed.

(** X21.  A CA certificate that cannot be used ends
    [getTransportCredentials] at once: the error of [ReadFile], or "failed
    to append certs" when the file holds no certificate, is returned, and
    the client key pair is not looked at. *)
Theorem getTransportCredentials_CA_failure :
  GetBrokerProperty "ca-cert-path" <> "" ->
  let path := GetBrokerProperty "ca-cert-path" in
  let tried := [Infof "Loading CA certificate"; ReadFile path] in
  match ioutil_ReadFile path with
  | inl err =>
      getTransportCredentials Certificate GetBrokerProperty ioutil_ReadFile
        AppendCertsFromPEM tls_LoadX509KeyPair = (inl err, tried)
  | inr pem =>
      AppendCertsFromPEM pem = false ->
      getTransportCredentials Certificate GetBrokerProperty ioutil_ReadFile
        AppendCertsFromPEM tls_LoadX509KeyPair
      = (inl (fmt_Errorf "failed to append certs"), tried)
  end.
Proof.
  intros Hca path tried. unfold getTransportCredentials, load_RootCAs. fold path.
  destruct (String.eqb_spec path "") as [Heq | _]; [destruct (Hca Heq)|]. cbn [negb].
  destruct (ioutil_ReadFile path) as [err | pem]; [reflexivity|].
  intros ->. reflexivity.
Qed.

End MoreCredentials.

Section MoreCredentialsExamples.
Import startup.

Lemma getTransportCredentials_success_witness :
  (RootCAs (mkTLS (Certificate := unit) None []) = None
     <-> (fun name : string => if String.eqb name "client-cert-path" then "/etc/minion/client.crt" else "")
           "ca-cert-path" = "")
  /\ Certificates (mkTLS (Certificate := unit) None []) = [].
Proof.
  pose proof (getTransportCredentials_success unit
                (fun name => if String.eqb name "client-cert-path"
                             then "/etc/minion/client.crt" else "")
                (fun _ => inl (fmt_Errorf "no such file")) (fun _ => false)
                (fun _ _ => inr tt) (mkTLS None []) [] eq_refl) as (Hca & Hcert & _).
  split; [exact Hca | reflexivity].
Defined.

Lemma getTransportCredentials_CA_failure_witness :
  getTransportCredentials unit (fun name => if String.eqb name "ca-cert-path"
                                            then "/etc/minion/ca.crt" else "")
    (fun _ => inl (fmt_Errorf "no such file")) (fun _ => false) (fun _ _ => inr tt)
  = (inl (fmt_Errorf "no such file"),
     [Infof "Loading CA certificate"; ReadFile "/etc/minion/ca.crt"]).
Proof.
  apply (getTransportCredentials_CA_failure unit
           (fun name => if String.eqb name "ca-cert-path" then "/etc/minion/ca.crt" else "")
           (fun _ => inl (fmt_Errorf "no such file")) (fun _ => false) (fun _ _ => inr tt)).
  discriminate.
Defined.

End MoreCredentialsExamples.

(* ===================================================================== *)
(** * Properties of [Start] and [Stop] of the client                      *)
(* ===================================================================== *)

Section MoreStart.
Import broker trace more startup.
Local Open Scope go_scope.

Variable net : Net.
Variable initTracing : option error.
Variable Certificate : Type.
Variable GetBrokerProperty : string -> string.
Variable ioutil_ReadFile : string -> error + list Byte.byte.
Variable AppendCertsFromPEM : list Byte.byte -> bool.
Variable tls_LoadX509KeyPair : string -> string -> error + Certificate.
Variable StatsPort : Z.
Variable grpc_Dial : string -> list DialOption -> option error.
Variable StartModules : M (option error).

Lemma bind_Done {A B} (m : M A) (k : A -> M B) (w w' : World) (b : B) :
  bind m k w = Done b w' -> exists a w1, m w = Done a w1 /\ k a w1 = Done b w'.
Proof.
  unfold bind. destruct (m w) as [a w1 | msg w1]; [|discriminate].
  intros H. exists a, w1. split; [reflexivity | exact H].
Qed.

(** What [initRPCStream] returns and leaves behind. *)
Lemma initRPCStream_result (w : World) :
  exists res w',
    initRPCStream net w = Done res w'
    /\ match res with
       | Some _ => rpcStream w' = None /\ goroutines w' = goroutines w
       | None =>
           rpcStream w' = Some (opened w)
           /\ goroutines w' = goroutines w ++ [RpcHandler; RpcSupervisor]
       end.
Proof.
  destruct (rpcStream w) as [s|] eqn:Hs;
    destruct (onms_RpcStreaming net (tick w)) as [e|] eqn:Hopen; go_run;
    do 2 eexists; (split; [reflexivity|]); cbn; rewrite <- ?app_assoc; split; reflexivity.
Qed.

(** Steps only add their events. *)
Lemma perform_run (steps : list Step) (w : World) :
  perform steps w = Done tt (set_events (events w ++ map event_of steps) w).
Proof.
  revert w. induction steps as [|st steps IH]; intros w; cbn [perform map].
  - destruct w. unfold ret, set_events. cbn. rewrite app_nil_r. reflexivity.
  - unfold bind, emit, modify. rewrite IH. unfold set_events. cbn.
    rewrite <- app_assoc. reflexivity.
Qed.

(** The lines 133 to 143 of [Start]: what they log and read, and the
    error they end [Start] with. *)
Lemma secure_run (w : World) :
  (if String.eqb (GetBrokerProperty "tls-enabled") "true" then
     log Info "Enabling TLS" ;;;
     credentials Certificate GetBrokerProperty ioutil_ReadFile AppendCertsFromPEM
       tls_LoadX509KeyPair
   else log Info "Using Insecure Connection" ;;; ret None) w
  = Done (credentials_error Certificate GetBrokerProperty ioutil_ReadFile
            AppendCertsFromPEM tls_LoadX509KeyPair)
         (set_events
            (events w ++ security_events Certificate GetBrokerProperty ioutil_ReadFile
                           AppendCertsFromPEM tls_LoadX509KeyPair) w).
Proof.
  unfold credentials_error, security_events, credentials.
  destruct (String.eqb (GetBrokerProperty "tls-enabled") "true").
  - unfold bind at 1. unfold log, emit, modify. unfold bind at 1. rewrite perform_run.
    destruct (fst (getTransportCredentials Certificate GetBrokerProperty ioutil_ReadFile
                     AppendCertsFromPEM tls_LoadX509KeyPair));
      unfold ret, set_events; cbn; rewrite <- app_assoc; reflexivity.
  - reflexivity.
Qed.

Lemma off_stream_security_events :
  Forall (fun e => off_stream e = true)
    (security_events Certificate GetBrokerProperty ioutil_ReadFile AppendCertsFromPEM
       tls_LoadX509KeyPair).
Proof.
  unfold security_events.
  destruct (String.eqb (GetBrokerProperty "tls-enabled") "true").
  - constructor; [reflexivity|]. apply Forall_map, Forall_forall.
    intros [msg | path | certFile keyFile] _; reflexivity.
  - constructor; [reflexivity | constructor].
Qed.

(** X22.  [Start] touches no stream before the connection is dialled: when
    the configuration, the registry or the metrics are missing, when tracing
    or the TLS credentials cannot be set up, or when the dial fails, [Start]
    returns an error, no stream is opened or closed, and the sink modules
    are not started.  Nothing has happened when a field is missing or
    tracing fails; otherwise the line that tells whether TLS is used was
    logged and, with TLS, [getTransportCredentials] has logged its lines
    and read its files. *)
Theorem Start_fails_before_streams (has_config has_registry has_metrics : bool) (w : World) :
  has_config = false \/ has_registry = false \/ has_metrics = false
  \/ initTracing <> None
  \/ credentials_error Certificate GetBrokerProperty ioutil_ReadFile
       AppendCertsFromPEM tls_LoadX509KeyPair <> None
  \/ grpc_Dial (api.BrokerURL (config w)) (dial_options GetBrokerProperty StatsPort)
     <> None ->
  exists err w',
    Start net initTracing Certificate GetBrokerProperty ioutil_ReadFile AppendCertsFromPEM
      tls_LoadX509KeyPair StatsPort grpc_Dial StartModules
      has_config has_registry has_metrics w = Done (Some err) w'
    /\ sinkStream w' = sinkStream w
    /\ rpcStream w' = rpcStream w
    /\ goroutines w' = goroutines w
    /\ metrics w' = metrics w
    /\ tick w' = tick w
    /\ (if has_config && has_registry && has_metrics && bool_decide (initTracing = None)
        then events w' = events w
                         ++ security_events Certificate GetBrokerProperty ioutil_ReadFile
                              AppendCertsFromPEM tls_LoadX509KeyPair
        else events w' = events w)
    /\ Forall (fun e => off_stream e = true)
         (security_events Certificate GetBrokerProperty ioutil_ReadFile
            AppendCertsFromPEM tls_LoadX509KeyPair).
Proof.
  intros H. unfold Start.
  remember (dial_options GetBrokerProperty StatsPort) as options eqn:Hoptions.
  pose proof off_stream_security_events as Hoff.
  destruct has_config; cbn [negb andb];
    [|do 2 eexists; split; [reflexivity|]; repeat split; exact Hoff].
  destruct has_registry; cbn [negb andb];
    [|do 2 eexists; split; [reflexivity|]; repeat split; exact Hoff].
  destruct has_metrics; cbn [negb andb];
    [|do 2 eexists; split; [reflexivity|]; repeat split; exact Hoff].
  destruct initTracing as [e|];
    [do 2 eexists; split; [reflexivity|]; repeat split; exact Hoff|].
  rewrite bool_decide_eq_true_2 by reflexivity.
  unfold bind at 1. rewrite secure_run.
  destruct (credentials_error Certificate GetBrokerProperty ioutil_ReadFile
              AppendCertsFromPEM tls_LoadX509KeyPair) as [e|] eqn:Hcred.
  - do 2 eexists. split; [reflexivity|]. repeat split. exact Hoff.
  - unfold bind at 1, gets. cbn [config set_events].
    destruct (grpc_Dial (api.BrokerURL (config w)) options) as [e|] eqn:Hdial.
    + do 2 eexists. split; [reflexivity|]. repeat split. exact Hoff.
    + exfalso. intuition congruence.
Qed.

(** X23.  When [Start] returns [nil], whatever the sink modules did while
    they were started, the last thing that happened is a successful
    [initRPCStream]: the client holds an RPC stream and the two goroutines
    started last are the request handler and the supervisor.  Nothing had
    been missing, and tracing, credentials and dial had succeeded. *)
Theorem Start_ends_with_RPC_stream (has_config has_registry has_metrics : bool)
    (w w' : World) :
  Start net initTracing Certificate GetBrokerProperty ioutil_ReadFile AppendCertsFromPEM
    tls_LoadX509KeyPair StatsPort grpc_Dial StartModules
    has_config has_registry has_metrics w = Done None w' ->
  (exists s, rpcStream w' = Some s)
  /\ (exists before, goroutines w' = before ++ [RpcHandler; RpcSupervisor])
  /\ has_config = true /\ has_registry = true /\ has_metrics = true
  /\ initTracing = None
  /\ credentials_error Certificate GetBrokerProperty ioutil_ReadFile
       AppendCertsFromPEM tls_LoadX509KeyPair = None
  /\ grpc_Dial (api.BrokerURL (config w)) (dial_options GetBrokerProperty StatsPort)
     = None.
Proof.
  unfold Start.
  destruct has_config; cbn [negb]; [|discriminate].
  destruct has_registry; cbn [negb]; [|discriminate].
  destruct has_metrics; cbn [negb]; [|discriminate].
  destruct initTracing as [e|]; [discriminate|].
  intros H. apply bind_Done in H as (secured & w1 & Hsec & H).
  rewrite secure_run in Hsec. injection Hsec as Hcred Hw1.
  assert (Hc1 : config w1 = config w) by (rewrite <- Hw1; reflexivity).
  destruct secured as [e|]; [discriminate|].
  apply bind_Done in H as (url & w2 & Hurl & H).
  injection Hurl as <- <-. rewrite Hc1 in H.
  destruct (grpc_Dial (api.BrokerURL (config w)) (dial_options GetBrokerProperty StatsPort))
    as [e|]; [discriminate|].
  apply bind_Done in H as ([] & w3 & _ & H).
  apply bind_Done in H as (err & w4 & _ & H).
  destruct err as [e|]; [discriminate|].
  apply bind_Done in H as (err & w5 & _ & H).
  destruct err as [e|]; [discriminate|].
  apply bind_Done in H as ([] & w6 & _ & H).
  apply bind_Done in H as (err & w7 & Hrpc & H).
  destruct err as [e|]; [discriminate|]. injection H as <-.
  destruct (initRPCStream_result w6) as (res & w8 & Hrun & Hres).
  rewrite Hrun in Hrpc. injection Hrpc as -> ->. destruct Hres as (Hs & Hg).
  split; [eexists; exact Hs|]. split; [eexists; exact Hg|]. repeat split.
  exact Hcred.
Qed.

(** X24.  [Stop], once the sink modules are stopped, half-closes the
    streams the client holds, the RPC stream first, between its two log
    lines; a stream the client does not hold is passed over, and the stream
    fields, the counters and the goroutines stay as they are. *)
Theorem Stop_half_closes_streams (StopModules : M unit) (w w1 : World) :
  StopModules w = Done tt w1 ->
  exists w',
    Stop StopModules w = Done tt w'
    /\ events w' = events w1 ++ [EvLog Warn "Stopping gRPC client"]
                             ++ close_old (rpcStream w1) ++ close_old (sinkStream w1)
                             ++ [EvLog Info "Good bye"]
    /\ rpcStream w' = rpcStream w1
    /\ sinkStream w' = sinkStream w1
    /\ metrics w' = metrics w1
    /\ goroutines w' = goroutines w1.
Proof.
  intros Hmodules. unfold Stop. unfold bind at 1. rewrite Hmodules.
  destruct (rpcStream w1) as [r|] eqn:Hr; destruct (sinkStream w1) as [s|] eqn:Hs;
    go_run; rewrite <- ?app_assoc; eexists; repeat split; reflexivity.
Qed.

End MoreStart.

Section MoreStartExamples.
Import broker trace more startup example.

Lemma Start_fails_before_streams_witness :
  let properties := fun name : string =>
                      if String.eqb name "tls-enabled" then "true"
                      else if String.eqb name "ca-cert-path" then "/etc/minion/ca.crt"
                      else "" in
  exists err w',
    Start net_down None unit properties (fun _ => inl (fmt_Errorf "no such file"))
      (fun _ => false) (fun _ _ => inr tt) 0 (fun _ _ => None) (ret None)
      true true true (started ∅)
    = Done (Some err) w'
    /\ sinkStream w' = Some 0%nat /\ rpcStream w' = Some 1%nat
    /\ events w' = [EvLog Info "Enabling TLS"; EvLog Info "Loading CA certificate";
                    EvReadFile "/etc/minion/ca.crt"].
Proof.
  intros properties.
  destruct (Start_fails_before_streams net_down None unit properties
              (fun _ => inl (fmt_Errorf "no such file")) (fun _ => false)
              (fun _ _ => inr tt) 0 (fun _ _ => None) (ret None) true true true (started ∅))
    as (err & w' & Hrun & Hsink & Hrpc & _ & _ & _ & Hev & _).
  - right. right. right. right. left. discriminate.
  - exists err, w'. repeat split; assumption.
Defined.

Lemma Start_ends_with_RPC_stream_witness :
  exists w',
    Start (net_up expired_request) None unit (fun _ => "")
      (fun _ => inl (fmt_Errorf "no such file")) (fun _ => false) (fun _ _ => inr tt)
      0 (fun _ _ => None) (ret None)
      true true true (fresh ∅) = Done None w'
    /\ (exists s, rpcStream w' = Some s)
    /\ exists before, goroutines w' = before ++ [RpcHandler; RpcSupervisor].
Proof.
  assert (Hrun : exists w',
             Start (net_up expired_request) None unit (fun _ => "")
               (fun _ => inl (fmt_Errorf "no such file")) (fun _ => false)
               (fun _ _ => inr tt) 0 (fun _ _ => None) (ret None)
               true true true (fresh ∅) = Done None w').
  { eexists. lazy. reflexivity. }
  destruct Hrun as (w' & Hrun). exists w'. split; [exact Hrun|].
  destruct (Start_ends_with_RPC_stream (net_up expired_request) None unit (fun _ => "")
              (fun _ => inl (fmt_Errorf "no such file")) (fun _ => false)
              (fun _ _ => inr tt) 0 (fun _ _ => None) (ret None)
              true true true (fresh ∅) w' Hrun)
    as (Hs & Hg & _).
  split; assumption.
Defined.

Lemma Stop_half_closes_streams_witness :
  exists w',
    Stop (ret tt) (started ∅) = Done tt w'
    /\ events w' = [EvLog Warn "Stopping gRPC client"; EvCloseSend 1%nat; EvCloseSend 0%nat;
                    EvLog Info "Good bye"].
Proof.
  destruct (Stop_half_closes_streams (ret tt) (started ∅) (started ∅) eq_refl)
    as (w' & Hrun & Hev & _).
  exists w'. split; [exact Hrun | exact Hev].
Defined.

End MoreStartExamples.
